(** * Session and workspace-permission engine of bako-safe-api

    A shallow embedding of the authorization middleware
    ([authPermissionMiddleware], src/src/modules/user/types.ts), of the
    [AuthController] ([signIn], [updateWorkspace], src/unnamed/part_000) and
    of the member and permission endpoints of the [WorkspaceController]
    ([updatePermissions], [addMember], [removeMember], src/unnamed/part_002).

    Persistence is modelled as explicit state: a table of workspaces and a
    table of user tokens, threaded through every operation.  Exceptions
    thrown inside a [try] block and turned into a response by its [catch]
    are modelled by an inner result type and a separate [catch] step. *)

From Stdlib Require Import ZArith Lia.
From Stdlib Require Import Ascii.
From stdpp Require Import base gmap strings list sorting pretty.

Open Scope string_scope.

(* ------------------------------------------------------------------ *)
(** ** Data model *)

(** [PermissionRoles] of src/models/Workspace (roles named by the spec). *)
Inductive PermissionRoles := OWNER | ADMIN | MANAGER | VIEWER.

#[global] Instance PermissionRoles_eq_dec : EqDecision PermissionRoles.
Proof. solve_decision. Defined.

(** [IPermissions]: for each role name the list of resources it covers
    (['*'] for all), e.g. [{ ADMIN: ['*'] }]. *)
Abbreviation IPermissions := (gmap string (list string)).

Record User := mkUser {
  user_id : string;
  user_address : string;
  user_avatar : string;
}.

(** A workspace row; [permissions] is the JS object keyed by user id. *)
Record Workspace := mkWorkspace {
  ws_id : string;
  ws_name : string;
  ws_avatar : string;
  ws_single : bool;
  ws_owner : User;
  ws_members : list User;
  ws_permissions : gmap string IPermissions;
}.

(** The titles of [Unauthorized] errors used in the sources. *)
Inductive UnauthorizedErrorTitles := MISSING_CREDENTIALS | MISSING_PERMISSION.

(* ------------------------------------------------------------------ *)
(** ** The authorization gate *)

(** What the Express middleware does: call [next()] (admit) or
    [next(e)] with an [Unauthorized] error of the given title. *)
Inductive GateResult :=
  | Next
  | Reject (title : UnauthorizedErrorTitles).

Section Gate.

(** [validatePermissionGeneral] (src/utils/permissionValidate) is not part
    of the sources; the gate is verified for every implementation of it. *)
Variable validatePermissionGeneral :
  Workspace -> string -> list PermissionRoles -> bool.

(** [authPermissionMiddleware(permission)] applied to a request whose
    context carries [user] and [workspace] (each possibly undefined).
    [permission = None] is an undefined argument. *)
Definition authPermissionMiddleware (permission : option (list PermissionRoles))
    (user : option User) (workspace : option Workspace) : GateResult :=
  match permission with
  | None | Some [] => Next
  | Some ps =>
      match user, workspace with
      | Some u, Some w =>
          match ws_permissions w !! user_id u with
          | None => Reject MISSING_PERMISSION
          | Some _ =>
              if validatePermissionGeneral w (user_id u) ps then Next
              else Reject MISSING_PERMISSION
          end
      | _, _ => Reject MISSING_CREDENTIALS
      end
  end.

End Gate.

(* ------------------------------------------------------------------ *)
(** ** JavaScript values of a request body *)

(** The JSON values a sign-in body carries: strings and numbers written
    as integers.  [JNum z] is the number literal of value [z]; [JSON.parse]
    turns it into the binary64 number nearest to [z] ([number_value z]
    below). *)
Inductive JValue :=
  | JStr (s : string)
  | JNum (z : Z).

#[global] Instance JValue_eq_dec : EqDecision JValue.
Proof. solve_decision. Defined.

(** A parsed JSON object: its own properties in the order [JSON.parse]
    created them ([JSON.parse] keeps one property per key). *)
Abbreviation JObject := (list (string * JValue)).

(** Property read [o.k]; [None] is [undefined]. *)
Definition get (o : JObject) (k : string) : option JValue :=
  snd <$> find (fun kv => bool_decide (fst kv = k)) o.

(** JavaScript truthiness of a possibly undefined value (the number of a
    nonzero [JNum z] is nonzero). *)
Definition truthy (v : option JValue) : bool :=
  match v with
  | None => false
  | Some (JStr s) => bool_decide (s <> EmptyString)
  | Some (JNum z) => bool_decide (z <> 0%Z)
  end.

(** Object rest pattern [{ signature, workspace_id, ...rest } = o]. *)
Definition omit (ks : list string) (o : JObject) : JObject :=
  List.filter (fun kv => negb (bool_decide (fst kv ∈ ks))) o.

(** *** JavaScript numbers *)

(** A JavaScript number: [NaN], an infinity, or the finite binary64
    value [m * 2 ^ e] (the sign of a zero is not kept). *)
Inductive JSNumber :=
  | NaN
  | Infinity (negative : bool)
  | Finite (m e : Z).

#[global] Instance JSNumber_eq_dec : EqDecision JSNumber.
Proof. solve_decision. Defined.

Section Numbers.
Local Open Scope Z_scope.

(** The binary64 number nearest to [n / d] (for [n, d > 0]), ties to
    even, with the sign given by [negative]: the quotient is taken with
    53 significant bits ([2 ^ 52 <= q < 2 ^ 53] at exponent [e]), or at
    the subnormal exponent [-1074]; a result of [2 ^ 1024] or more is an
    infinity. *)
Definition round_binary64 (negative : bool) (n d : Z) : JSNumber :=
  let scaled e :=
    if 0 <=? e then Z.div_eucl n (d * 2 ^ e) else Z.div_eucl (n * 2 ^ (- e)) d in
  let divisor e := if 0 <=? e then d * 2 ^ e else d in
  let k := Z.log2 n - Z.log2 d - 52 in
  let e := Z.max (if fst (scaled k) <? 2 ^ 52 then k - 1 else k) (-1074) in
  let '(q, r) := scaled e in
  let q := match Z.compare (2 * r) (divisor e) with
           | Lt => q
           | Gt => q + 1
           | Eq => if Z.even q then q else q + 1
           end in
  let '(q, e) := if q =? 2 ^ 53 then (2 ^ 52, e + 1) else (q, e) in
  if 971 <? e then Infinity negative
  else Finite (if negative then - q else q) e.

(** The binary64 number nearest to the exact value [m * 2 ^ e]. *)
Definition round_dyadic (m e : Z) : JSNumber :=
  if m =? 0 then Finite 0 0
  else if 0 <=? e then round_binary64 (m <? 0) (Z.abs m * 2 ^ e) 1
  else round_binary64 (m <? 0) (Z.abs m) (2 ^ (- e)).

(** The number [JSON.parse] gives for the literal of the integer [z]. *)
Definition number_value (z : Z) : JSNumber := round_dyadic z 0.

(** [x + y] on numbers: IEEE 754 addition, rounded to binary64. *)
Definition js_add (x y : JSNumber) : JSNumber :=
  match x, y with
  | NaN, _ | _, NaN => NaN
  | Infinity a, Infinity b => if Bool.eqb a b then Infinity a else NaN
  | Infinity a, Finite _ _ | Finite _ _, Infinity a => Infinity a
  | Finite m1 e1, Finite m2 e2 =>
      let e := Z.min e1 e2 in
      round_dyadic (m1 * 2 ^ (e1 - e) + m2 * 2 ^ (e2 - e)) e
  end.

(** [x * y] on numbers: IEEE 754 multiplication, rounded to binary64. *)
Definition js_mul (x y : JSNumber) : JSNumber :=
  match x, y with
  | NaN, _ | _, NaN => NaN
  | Infinity a, Infinity b => Infinity (xorb a b)
  | Infinity a, Finite m _ | Finite m _, Infinity a =>
      if m =? 0 then NaN else Infinity (xorb a (m <? 0))
  | Finite m1 e1, Finite m2 e2 => round_dyadic (m1 * m2) (e1 + e2)
  end.

(** Equality of the values of two numbers. *)
Definition same_value (x y : JSNumber) : bool :=
  match x, y with
  | NaN, NaN => true
  | Infinity a, Infinity b => Bool.eqb a b
  | Finite m1 e1, Finite m2 e2 =>
      let e := Z.min e1 e2 in m1 * 2 ^ (e1 - e) =? m2 * 2 ^ (e2 - e)
  | _, _ => false
  end.

(** [num / den] compared with [10 ^ j]. *)
Definition compare_pow10 (num den j : Z) : comparison :=
  if 0 <=? j then Z.compare num (den * 10 ^ j) else Z.compare (num * 10 ^ (- j)) den.

(** The [n] with [10 ^ (n - 1) <= num / den < 10 ^ n], searched from [n]. *)
Fixpoint decimal_exponent (fuel : nat) (num den n : Z) : Z :=
  match fuel with
  | O => n
  | S fuel =>
      match compare_pow10 num den (n - 1) with
      | Lt => decimal_exponent fuel num den (n - 1)
      | _ =>
          match compare_pow10 num den n with
          | Lt => n
          | _ => decimal_exponent fuel num den (n + 1)
          end
      end
  end.

(** Whether [s * 10 ^ j] denotes the number [x]. *)
Definition round_trips (x : JSNumber) (s j : Z) : bool :=
  if 0 <=? j then same_value (round_binary64 false (s * 10 ^ j) 1) x
  else same_value (round_binary64 false s (10 ^ (- j))) x.

(** Step 5 of [Number::toString] for the positive number [x] of value
    [num / den] with [10 ^ (n - 1) <= x < 10 ^ n]: the least [k] from
    [k] on, and the [k]-digit [s], with [s * 10 ^ (n - k)] denoting [x];
    of two such [s] the one nearer to [x], of two as near the even one.
    The candidates are the [k]-digit truncation of [x] and its successor
    (which may carry to [10 ^ k], i.e. to [10 ^ (k - 1)] with [n + 1]).
    Returns [s] and [n]. *)
Fixpoint shortest_digits (fuel : nat) (k : Z) (x : JSNumber) (num den n : Z) : Z * Z :=
  let j := k - n in
  let '(c, r2, den') :=
    if 0 <=? j then let '(c, r) := Z.div_eucl (num * 10 ^ j) den in (c, 2 * r, den)
    else let '(c, r) := Z.div_eucl num (den * 10 ^ (- j)) in
         (c, 2 * r, den * 10 ^ (- j)) in
  let ok0 := round_trips x c (n - k) in
  let ok1 := round_trips x (c + 1) (n - k) in
  let up := if c + 1 =? 10 ^ k then (10 ^ (k - 1), n + 1) else (c + 1, n) in
  let pick_up :=
    if ok0 && ok1 then
      match Z.compare r2 den' with
      | Lt => false
      | Gt => true
      | Eq => negb (Z.even c)
      end
    else ok1 in
  match fuel with
  | O => if pick_up then up else (c, n)
  | S fuel =>
      if ok0 || ok1 then (if pick_up then up else (c, n))
      else shortest_digits fuel (k + 1) x num den n
  end.

Fixpoint zeros (n : nat) : string :=
  match n with
  | O => EmptyString
  | S n => String "0"%char (zeros n)
  end.

(** Steps 6 to 10 of [Number::toString]: the digits [s] of length [k]
    placed at the decimal exponent [n]. *)
Definition format_decimal (s n : Z) : string :=
  let ds := pretty s in
  let k := Z.of_nat (String.length ds) in
  if (k <=? n) && (n <=? 21) then ds +:+ zeros (Z.to_nat (n - k))
  else if (0 <? n) && (n <=? 21) then
    String.substring 0 (Z.to_nat n) ds +:+ "." +:+
    String.substring (Z.to_nat n) (Z.to_nat (k - n)) ds
  else if (-6 <? n) && (n <=? 0) then
    "0." +:+ zeros (Z.to_nat (- n)) +:+ ds
  else
    let e := n - 1 in
    let exponent := "e" +:+ (if 0 <=? e then "+" else "-") +:+ pretty (Z.abs e) in
    if k =? 1 then ds +:+ exponent
    else String.substring 0 1 ds +:+ "." +:+
         String.substring 1 (Z.to_nat (k - 1)) ds +:+ exponent.

(** [Number::toString(x)] in radix 10. *)
Definition Number_toString (x : JSNumber) : string :=
  match x with
  | NaN => "NaN"
  | Infinity negative => if negative then "-Infinity" else "Infinity"
  | Finite m e =>
      if m =? 0 then "0" else
      let '(num, den) := if 0 <=? e then (Z.abs m * 2 ^ e, 1) else (Z.abs m, 2 ^ (- e)) in
      let n := decimal_exponent 400 num den 1 in
      let '(s, n) := shortest_digits 16 1 (Finite (Z.abs m) e) num den n in
      (if m <? 0 then "-" else EmptyString) +:+ format_decimal s n
  end.

(** *** [Number(s)] on a string *)

(** The bytes of a string: its UTF-8 encoding. *)
Fixpoint utf8_bytes (s : string) : list nat :=
  match s with
  | EmptyString => []
  | String c s' => nat_of_ascii c :: utf8_bytes s'
  end.

(** The white space and line terminators of JavaScript, UTF-8 encoded:
    TAB, LF, VT, FF, CR, SPACE, U+00A0, U+1680, U+2000 to U+200A, U+2028,
    U+2029, U+202F, U+205F, U+3000 and U+FEFF. *)
Definition js_white_space : list (list nat) :=
  app [[9]; [10]; [11]; [12]; [13]; [32]; [194; 160]; [225; 154; 128]]%nat
    (app (map (fun b => [226; 128; b]%nat) (seq 128 11))
       [[226; 128; 168]; [226; 128; 169]; [226; 128; 175]; [226; 129; 159];
        [227; 128; 128]; [239; 187; 191]]%nat).

Fixpoint is_prefix (p b : list nat) : bool :=
  match p, b with
  | [], _ => true
  | x :: p', y :: b' => Nat.eqb x y && is_prefix p' b'
  | _, _ => false
  end.

(** Removes the sequences [seqs] from the head of [b], at most [fuel]
    of them. *)
Fixpoint strip_leading (seqs : list (list nat)) (fuel : nat) (b : list nat) : list nat :=
  match fuel with
  | O => b
  | S fuel =>
      match find (fun p => is_prefix p b) seqs with
      | Some p => strip_leading seqs fuel (drop (length p) b)
      | None => b
      end
  end.

(** White space and line terminators removed from both ends. *)
Definition trim (b : list nat) : list nat :=
  let b := strip_leading js_white_space (length b) b in
  rev (strip_leading (map (@rev nat) js_white_space) (length b) (rev b)).

(** The value of the ASCII digit [c] in [radix] (at most 16). *)
Definition digit_value (radix c : nat) : option nat :=
  let v := if Nat.leb 48 c && Nat.leb c 57 then Some (c - 48)%nat
           else if Nat.leb 97 c && Nat.leb c 102 then Some (c - 87)%nat
           else if Nat.leb 65 c && Nat.leb c 70 then Some (c - 55)%nat
           else None in
  match v with
  | Some d => if Nat.ltb d radix then Some d else None
  | None => None
  end.

(** The digits in [radix] at the head of [b]: their value appended to
    [acc], their number added to [len], and the rest of [b]. *)
Fixpoint take_digits (radix : nat) (acc : Z) (len : nat) (b : list nat)
    : Z * nat * list nat :=
  match b with
  | c :: b' =>
      match digit_value radix c with
      | Some d => take_digits radix (Z.of_nat radix * acc + Z.of_nat d) (S len) b'
      | None => (acc, len, b)
      end
  | [] => (acc, len, [])
  end.

(** [NonDecimalIntegerLiteral]: [0x], [0o] or [0b] (in either case) and
    one or more digits, nothing else. *)
Definition non_decimal_value (b : list nat) : option Z :=
  match b with
  | c :: x :: rest =>
      let radix :=
        if Nat.eqb x 120 || Nat.eqb x 88 then 16%nat
        else if Nat.eqb x 111 || Nat.eqb x 79 then 8%nat
        else if Nat.eqb x 98 || Nat.eqb x 66 then 2%nat
        else 0%nat in
      if Nat.eqb c 48 && negb (Nat.eqb radix 0) then
        match take_digits radix 0 0 rest with
        | (v, S _, []) => Some v
        | _ => None
        end
      else None
  | _ => None
  end.

(** [StrUnsignedDecimalLiteral] other than [Infinity]: digits with an
    optional fraction ([1], [1.], [1.5], [.5]), then an optional exponent
    ([e] or [E], an optional sign, digits); the value is [M * 10 ^ scale]
    and the result is [(M, scale)]. *)
Definition unsigned_decimal (b : list nat) : option (Z * Z) :=
  let '(i, ni, b1) := take_digits 10 0 0 b in
  let '(f, nf, b2) :=
    match b1 with
    | c :: b1' => if Nat.eqb c 46 then take_digits 10 i 0 b1' else (i, 0%nat, b1)
    | [] => (i, 0%nat, [])
    end in
  if Nat.eqb (ni + nf) 0 then None else
  match b2 with
  | [] => Some (f, - Z.of_nat nf)
  | c :: b3 =>
      if Nat.eqb c 101 || Nat.eqb c 69 then
        let '(negative, b4) :=
          match b3 with
          | c' :: b4 =>
              if Nat.eqb c' 43 then (false, b4)
              else if Nat.eqb c' 45 then (true, b4) else (false, b3)
          | [] => (false, [])
          end in
        match take_digits 10 0 0 b4 with
        | (x, S _, []) => Some (f, (if negative then - x else x) - Z.of_nat nf)
        | _ => None
        end
      else None
  end.

(** The number nearest to [M * 10 ^ scale] (negated if [negative]).  From
    [10 ^ 309] on it is an infinity, and below [10 ^ -324] (less than
    half the least subnormal, [2 ^ -1075]) it is 0: these two cases are
    decided without computing the power of ten. *)
Definition decimal_number (negative : bool) (M scale : Z) : JSNumber :=
  if M =? 0 then Finite 0 0
  else if 309 <=? scale then Infinity negative
  else if scale + Z.log2 M + 1 <? -324 then Finite 0 0
  else if 0 <=? scale then round_binary64 negative (M * 10 ^ scale) 1
  else round_binary64 negative M (10 ^ (- scale)).

(** [Number(s)] on a string (StringToNumber): white space and line
    terminators at both ends are ignored and an empty rest is 0;
    otherwise the rest must be a [StrNumericLiteral]: a [0x], [0o] or
    [0b] literal, or a decimal literal or [Infinity], these two with an
    optional sign; anything else is [NaN].  The value of the literal is
    rounded to the nearest binary64 number, as V8 does for literals of
    any length. *)
Definition js_Number (s : string) : JSNumber :=
  let b := trim (utf8_bytes s) in
  match b with
  | [] => Finite 0 0
  | c :: b' =>
      match non_decimal_value b with
      | Some v => if v =? 0 then Finite 0 0 else round_binary64 false v 1
      | None =>
          let '(negative, b') :=
            if Nat.eqb c 45 then (true, b')
            else if Nat.eqb c 43 then (false, b') else (false, b) in
          if bool_decide (b' = utf8_bytes "Infinity") then Infinity negative
          else match unsigned_decimal b' with
               | Some (M, scale) => decimal_number negative M scale
               | None => NaN
               end
      end
  end.

End Numbers.

(** *** [JSON.stringify] *)

Definition quote : ascii := ascii_of_nat 34.
Definition backslash : ascii := ascii_of_nat 92.

Definition hex_digit (n : nat) : ascii :=
  if decide (n < 10) then ascii_of_nat (48 + n) else ascii_of_nat (87 + n).

(** The escape of one character in a JSON string literal. *)
Definition json_escape_char (c : ascii) : string :=
  let n := nat_of_ascii c in
  if decide (n = 34) then String backslash (String quote EmptyString)
  else if decide (n = 92) then String backslash (String backslash EmptyString)
  else if decide (n = 8) then String backslash "b"
  else if decide (n = 12) then String backslash "f"
  else if decide (n = 10) then String backslash "n"
  else if decide (n = 13) then String backslash "r"
  else if decide (n = 9) then String backslash "t"
  else if decide (n < 32) then
    String backslash ("u00" +:+ String (hex_digit (n / 16))
                                 (String (hex_digit (n mod 16)) EmptyString))
  else String c EmptyString.

Fixpoint json_escape (s : string) : string :=
  match s with
  | EmptyString => EmptyString
  | String c s' => json_escape_char c +:+ json_escape s'
  end.

Definition json_quote (s : string) : string :=
  String quote (json_escape s +:+ String quote EmptyString).

(** A number in JSON: [ToString] of a finite number, [null] otherwise. *)
Definition stringify_number (x : JSNumber) : string :=
  match x with
  | Finite _ _ => Number_toString x
  | _ => "null"
  end.

Definition stringify_value (v : JValue) : string :=
  match v with
  | JStr s => json_quote s
  | JNum z => stringify_number (number_value z)
  end.

Definition stringify_member (kv : string * JValue) : string :=
  json_quote (fst kv) +:+ ":" +:+ stringify_value (snd kv).

Fixpoint join_members (o : JObject) : string :=
  match o with
  | [] => EmptyString
  | [kv] => stringify_member kv
  | kv :: o' => stringify_member kv +:+ "," +:+ join_members o'
  end.

(** The value of a key that is an array index: the decimal numeral,
    without a leading zero, of an integer below [2 ^ 32 - 1]. *)
Definition array_index (k : string) : option Z :=
  match utf8_bytes k with
  | [] => None
  | c :: rest =>
      match take_digits 10 0 0 (c :: rest) with
      | (v, _, []) =>
          if Nat.eqb c 48 && negb (bool_decide (rest = [])) then None
          else if (v <? 4294967295)%Z then Some v else None
      | _ => None
      end
  end.

(** A property whose key is an array index, paired with the index. *)
Definition index_entry (kv : string * JValue) : option (Z * (string * JValue)) :=
  (fun i => (i, kv)) <$> array_index (fst kv).

Fixpoint insert_by_index (x : Z * (string * JValue))
    (l : list (Z * (string * JValue))) : list (Z * (string * JValue)) :=
  match l with
  | [] => [x]
  | y :: l' => if (fst x <? fst y)%Z then x :: l else y :: insert_by_index x l'
  end.

(** [EnumerableOwnProperties] order (OrdinaryOwnPropertyKeys): the
    properties whose key is an array index in ascending order of the
    index, then the others in creation order. *)
Definition own_property_order (o : JObject) : JObject :=
  app (map snd (foldr insert_by_index [] (omap index_entry o)))
      (List.filter (fun kv => bool_decide (array_index (fst kv) = None)) o).

(** [JSON.stringify(o)] for a flat object. *)
Definition JSON_stringify (o : JObject) : string :=
  "{" +:+ join_members (own_property_order o) +:+ "}".

(** *** Dates (date-fns 2) *)

(** A [Date] is its time value in milliseconds; [None] is an Invalid Date. *)
Abbreviation Date := (option Z).

Section Dates.
Local Open Scope Z_scope.

(** The largest time value: 8.64e15 ms. *)
Definition max_time : Z := 8640000000000000.

(** The finite number [m * 2 ^ e] truncated toward zero. *)
Definition truncate (m e : Z) : Z :=
  if 0 <=? e then m * 2 ^ e else Z.quot m (2 ^ (- e)).

(** date-fns [toInteger] on a number: [NaN] and the infinities are kept,
    a finite number is truncated toward zero ([Math.ceil] below 0,
    [Math.floor] otherwise). *)
Definition toInteger (x : JSNumber) : JSNumber :=
  match x with
  | Finite m e => Finite (truncate m e) 0
  | _ => x
  end.

(** [new Date(t)] on a number [t], i.e. TimeClip: an Invalid Date unless
    [t] is finite with [|t| <= 8.64e15], otherwise [t] truncated. *)
Definition new_Date (t : JSNumber) : Date :=
  match t with
  | Finite m e =>
      if (if 0 <=? e then max_time <? Z.abs m * 2 ^ e
          else max_time * 2 ^ (- e) <? Z.abs m)
      then None else Some (truncate m e)
  | _ => None
  end.

(** [date.getTime()]: [NaN] for an Invalid Date. *)
Definition getTime (d : Date) : JSNumber :=
  match d with
  | Some t => Finite t 0
  | None => NaN
  end.

(** date-fns [toDate(argument)]: a number [n] gives [new Date(n)]; a
    string or [undefined] gives an Invalid Date (date-fns 2 does not parse
    strings). *)
Definition toDate (v : option JValue) : Date :=
  match v with
  | Some (JNum z) => new_Date (number_value z)
  | _ => None
  end.

(** date-fns [addMilliseconds(dirtyDate, dirtyAmount)]:
    [new Date(toDate(dirtyDate).getTime() + toInteger(dirtyAmount))]. *)
Definition addMilliseconds (dirtyDate : option JValue) (dirtyAmount : JSNumber) : Date :=
  new_Date (js_add (getTime (toDate dirtyDate)) (toInteger dirtyAmount)).

(** date-fns [addMinutes(dirtyDate, dirtyAmount)]:
    [addMilliseconds(dirtyDate, toInteger(dirtyAmount) * 60000)]. *)
Definition addMinutes (dirtyDate : option JValue) (dirtyAmount : JSNumber) : Date :=
  addMilliseconds dirtyDate (js_mul (toInteger dirtyAmount) (Finite 60000 0)).

End Dates.

(* ------------------------------------------------------------------ *)
(** ** Errors and responses *)

(** The exceptions thrown inside the controllers' [try] blocks. *)
Inductive Exn :=
  | Unauthorized (title : UnauthorizedErrorTitles)
  | NotFound
  | InvalidSignature
  | TypeError (message : string).

(** A thrown [GeneralError] carries [e.error] and [e.statusCode]; a
    JavaScript [TypeError] has neither. *)
Definition typed (e : Exn) : bool :=
  match e with TypeError _ => false | _ => true end.

Inductive Response (A : Type) :=
  | successful (a : A)
  | error_response (payload : option Exn).
Arguments successful {A} a.
Arguments error_response {A} payload.

(** [catch (e) { return error(e.error, e.statusCode); }] *)
Definition catch_error {A} (r : Exn + A) : Response A :=
  match r with
  | inl e => error_response (if typed e then Some e else None)
  | inr a => successful a
  end.

(* ------------------------------------------------------------------ *)
(** ** Sessions *)

(** A [UserToken] row. [token] is the sign-in signature. *)
Record UserToken := mkUserToken {
  tk_id : nat;
  tk_token : option JValue;
  tk_encoder : option JValue;
  tk_provider : option JValue;
  tk_expired_at : Date;
  tk_payload : string;
  tk_user : User;
  tk_workspace : option Workspace;
}.

(** The token table. *)
Abbreviation TokenStore := (list UserToken).

(** [token.workspace = w] *)
Definition set_workspace (t : UserToken) (w : Workspace) : UserToken :=
  mkUserToken (tk_id t) (tk_token t) (tk_encoder t) (tk_provider t)
    (tk_expired_at t) (tk_payload t) (tk_user t) (Some w).

(** [token.save()]: the row with the same primary key is overwritten. *)
Definition save_token (st : TokenStore) (t : UserToken) : TokenStore :=
  map (fun r => if decide (tk_id r = tk_id t) then t else r) st.

Definition fresh_token_id (st : TokenStore) : nat :=
  S (foldr Nat.max 0 (map tk_id st)).

(** Modelled from the spec: [AuthService.findToken({ userId })] (not in the
    sources) is [SessionStore.findByUser], a lookup by user id with
    equality semantics; an undefined id matches no row. *)
Definition findToken (st : TokenStore) (userId : option JValue) : option UserToken :=
  find (fun t => bool_decide (Some (JStr (user_id (tk_user t))) = userId)) st.

(** Modelled from the spec: [AuthService.signOut(user)] (not in the
    sources) invalidates the user's sessions: their rows are removed. *)
Definition signOut (st : TokenStore) (u : User) : TokenStore :=
  List.filter (fun t => negb (bool_decide (user_id (tk_user t) = user_id u))) st.

(** The fields [AuthService.signIn] receives. *)
Record SignInPayload := mkSignInPayload {
  p_token : option JValue;
  p_encoder : option JValue;
  p_provider : option JValue;
  p_expired_at : Date;
  p_payload : string;
  p_user : User;
  p_workspace : option Workspace;
}.

(** Modelled from the spec: [AuthService.signIn(payload)] (not in the
    sources) saves a new session row and returns it. *)
Definition authService_signIn (st : TokenStore) (p : SignInPayload)
    : UserToken * TokenStore :=
  let t := mkUserToken (fresh_token_id st) (p_token p) (p_encoder p)
             (p_provider p) (p_expired_at p) (p_payload p) (p_user p)
             (p_workspace p) in
  (t, app st [t]).

(** Modelled from the spec: [TokenUtils.recoverToken(signature)] (not in
    the sources) is [SessionStore.findByToken]; [None] is
    [InvalidCredential]. *)
Definition recoverToken (st : TokenStore) (credential : string) : option UserToken :=
  find (fun t => bool_decide (tk_token t = Some (JStr credential))) st.

(** The single-session invariant of the spec: no two stored sessions
    belong to the same user. *)
Definition at_most_one_session (st : TokenStore) : Prop :=
  forall t1 t2, t1 ∈ st -> t2 ∈ st ->
    user_id (tk_user t1) = user_id (tk_user t2) -> t1 = t2.

(** Modelled from the spec: [UserService.findOne(id)] (not in the
    sources) finds the user by id and fails with [NotFound]. *)
Definition findOne (users : list User) (id : option JValue) : Exn + User :=
  match find (fun u => bool_decide (Some (JStr (user_id u)) = id)) users with
  | Some u => inr u
  | None => inl NotFound
  end.

(** [new WorkspaceService().filter(f).list().then(r => r[0])]: the first
    workspace matching the filter. *)
Definition first_workspace (wsdb : list Workspace) (f : Workspace -> bool)
    : option Workspace :=
  find f wsdb.

(** The workspace loaded by id, [filter({ id }).list().then(r => r[0])].
    In [WorkspaceController] the guard [if (!data)] never fires: [data] is
    an array, which is truthy even when empty. *)
Definition load_workspace (wsdb : list Workspace) (id : string) : option Workspace :=
  first_workspace wsdb (fun w => bool_decide (ws_id w = id)).

(** [const { signature, workspace_id, ...payloadWithoutSignature } = req.body] *)
Definition payloadWithoutSignature (body : JObject) : JObject :=
  omit ["signature"; "workspace_id"] body.

(* ------------------------------------------------------------------ *)
(** ** [AuthController.signIn] *)

Section SignIn.

(** [new Web3Utils({ signature, message, signerAddress }).verifySignature()]
    (not in the sources): [false] is a thrown [InvalidSignature]. *)
Variable verifySignature : option JValue -> string -> option JValue -> bool.

(** [process.env.TOKEN_EXPIRATION_TIME]. *)
Variable TOKEN_EXPIRATION_TIME : option string.

(** The [try] block of [signIn]: its result and the token table after it. *)
Definition signIn (wsdb : list Workspace) (users : list User)
    (st : TokenStore) (body : JObject) : (Exn + UserToken) * TokenStore :=
  let signature := get body "signature" in
  let workspace_id := get body "workspace_id" in
  let expiresIn := default "15" TOKEN_EXPIRATION_TIME in
  if negb (verifySignature signature (JSON_stringify (payloadWithoutSignature body))
             (get body "address"))
  then (inl InvalidSignature, st)
  else
    let existingToken := findToken st (get body "user_id") in
    let st1 := match existingToken with
               | Some t => signOut st (tk_user t)
               | None => st
               end in
    let workspace :=
      first_workspace wsdb
        (if truthy workspace_id
         then fun w => bool_decide (Some (JStr (ws_id w)) = workspace_id)
         else fun w => bool_decide (Some (JStr (user_id (ws_owner w)))
                                    = get body "user_id") && ws_single w) in
    match findOne users (get body "user_id") with
    | inl e => (inl e, st1)
    | inr user =>
        let '(userToken, st2) :=
          authService_signIn st1
            (mkSignInPayload signature (get body "encoder") (get body "provider")
               (addMinutes (get body "createdAt") (js_Number expiresIn))
               (JSON_stringify (payloadWithoutSignature body)) user workspace) in
        (inr userToken, st2)
    end.

End SignIn.

(* ------------------------------------------------------------------ *)
(** ** [AuthController.updateWorkspace] *)

(** The body of the successful response. *)
Record SwitchResult := mkSwitchResult {
  r_workspace_id : string;
  r_workspace_name : string;
  r_workspace_avatar : string;
  r_workspace_permissions : option IPermissions;
  r_workspace_single : bool;
  r_token : option JValue;
  r_avatar : string;
  r_address : string;
}.

Definition null_token_error (isUserMember : bool) : Exn :=
  if isUserMember
  then TypeError "Cannot set properties of null (setting 'workspace')"
  else TypeError "Cannot read properties of null (reading 'save')".

(** The [try] block of [updateWorkspace] with body
    [{ workspace: workspaceId, user }]. *)
Definition updateWorkspace_try (wsdb : list Workspace) (st : TokenStore)
    (workspaceId user : string) : (Exn + SwitchResult) * TokenStore :=
  match load_workspace wsdb workspaceId with
  | None => (inl NotFound, st)
  | Some workspace =>
      let isUserMember :=
        existsb (fun m => bool_decide (user_id m = user)) (ws_members workspace) in
      let hasPermission := bool_decide (is_Some (ws_permissions workspace !! user)) in
      match findToken st (Some (JStr user)) with
      | None => (inl (null_token_error (isUserMember || hasPermission)), st)
      | Some token =>
          let token' := if isUserMember || hasPermission
                        then set_workspace token workspace else token in
          let st' := save_token st token' in
          match tk_workspace token' with
          | None =>
              (inl (TypeError "Cannot read properties of undefined (reading 'id')"), st')
          | Some w =>
              (inr (mkSwitchResult (ws_id w) (ws_name w) (ws_avatar w)
                      (ws_permissions w !! user_id (tk_user token')) (ws_single w)
                      (tk_token token') (user_avatar (tk_user token'))
                      (user_address (tk_user token'))), st')
          end
      end
  end.

Definition updateWorkspace (wsdb : list Workspace) (st : TokenStore)
    (workspaceId user : string) : Response SwitchResult * TokenStore :=
  let '(r, st') := updateWorkspace_try wsdb st workspaceId user in
  (catch_error r, st').

(* ------------------------------------------------------------------ *)
(** ** [WorkspaceController]: permissions and members *)

Definition with_members (w : Workspace) (ms : list User) : Workspace :=
  mkWorkspace (ws_id w) (ws_name w) (ws_avatar w) (ws_single w) (ws_owner w)
    ms (ws_permissions w).

Definition with_permissions (w : Workspace) (ps : gmap string IPermissions)
    : Workspace :=
  mkWorkspace (ws_id w) (ws_name w) (ws_avatar w) (ws_single w) (ws_owner w)
    (ws_members w) ps.

(** [workspace.save()]: the row with the same id is overwritten. *)
Definition save_workspace (wsdb : list Workspace) (w : Workspace) : list Workspace :=
  map (fun r => if decide (ws_id r = ws_id w) then w else r) wsdb.

(** [updatePermissions] with params [{ id, member }] and body
    [{ permissions }]. *)
Definition updatePermissions_try (wsdb : list Workspace) (id member : string)
    (permissions : IPermissions) : (Exn + Workspace) * list Workspace :=
  match load_workspace wsdb id with
  | None => (inl (TypeError "Cannot read properties of undefined (reading 'owner')"), wsdb)
  | Some workspace =>
      if decide (user_id (ws_owner workspace) = member)
      then (inl (Unauthorized MISSING_PERMISSION), wsdb)
      else
        let workspace' :=
          with_permissions workspace
            (<[member := permissions]> (ws_permissions workspace)) in
        (inr workspace', save_workspace wsdb workspace')
  end.

Definition updatePermissions (wsdb : list Workspace) (id member : string)
    (permissions : IPermissions) : Response Workspace * list Workspace :=
  let '(r, wsdb') := updatePermissions_try wsdb id member permissions in
  (catch_error r, wsdb').

(** [removeMember] with params [{ id, member }]. *)
Definition removeMember_try (wsdb : list Workspace) (id member : string)
    : (Exn + Workspace) * list Workspace :=
  match load_workspace wsdb id with
  | None => (inl (TypeError "Cannot read properties of undefined (reading 'owner')"), wsdb)
  | Some workspace =>
      if decide (user_id (ws_owner workspace) = member)
      then (inl (Unauthorized MISSING_PERMISSION), wsdb)
      else
        let workspace' :=
          with_permissions
            (with_members workspace
               (List.filter (fun m => negb (bool_decide (user_id m = member)))
                  (ws_members workspace)))
            (delete member (ws_permissions workspace)) in
        (inr workspace', save_workspace wsdb workspace')
  end.

Definition removeMember (wsdb : list Workspace) (id member : string)
    : Response Workspace * list Workspace :=
  let '(r, wsdb') := removeMember_try wsdb id member in
  (catch_error r, wsdb').

Section AddMember.

(** [defaultPermissions] of src/models/Workspace (not in the sources): the
    permission set of each role. *)
Variable defaultPermissions : PermissionRoles -> IPermissions.

(** [addMember] with params [{ id, member }]; [_member] is the user the
    [member] parameter resolves to ([UserService.findOne] for an id,
    [findByAddress] or [create] for an address). *)
Definition addMember_try (wsdb : list Workspace) (id : string) (_member : User)
    : (Exn + Workspace) * list Workspace :=
  match load_workspace wsdb id with
  | None => (inl (TypeError "Cannot read properties of undefined (reading 'members')"), wsdb)
  | Some workspace =>
      let workspace' :=
        if existsb (fun m => bool_decide (user_id m = user_id _member))
             (ws_members workspace)
        then workspace
        else with_permissions
               (with_members workspace (app (ws_members workspace) [_member]))
               (<[user_id _member := defaultPermissions VIEWER]>
                  (ws_permissions workspace)) in
      (inr workspace', save_workspace wsdb workspace')
  end.

Definition addMember (wsdb : list Workspace) (id : string) (_member : User)
    : Response Workspace * list Workspace :=
  let '(r, wsdb') := addMember_try wsdb id _member in
  (catch_error r, wsdb').

(** [s.length]: the number of UTF-16 code units of a string, counted on
    its UTF-8 encoding (a four-byte sequence is a surrogate pair, a
    continuation byte adds nothing). *)
Fixpoint utf16_length (b : list nat) : nat :=
  match b with
  | [] => 0
  | c :: b' =>
      (if Nat.leb 240 c then 2
       else if Nat.leb 128 c && Nat.ltb c 192 then 0 else 1) + utf16_length b'
  end.

(** Modelled from the spec: [UserService.findByAddress(address)] (not in
    the sources): the user with that address, if any. *)
Definition findByAddress (users : list User) (address : string) : option User :=
  find (fun u => bool_decide (user_address u = address)) users.

(** The id and the avatar ([UserService.randomAvatar()]) of a user that
    [UserService.create] inserts into the users table. *)
Variable new_user_id : list User -> string.
Variable randomAvatar : string.

(** [_member]: [member.length <= 36 ? findOne(member)
    : findByAddress(member) ?? create({ address: member, provider, avatar })];
    the created user is appended to the users table. *)
Definition resolve_member (users : list User) (member : string)
    : Exn + (User * list User) :=
  if Nat.leb (utf16_length (utf8_bytes member)) 36 then
    match findOne users (Some (JStr member)) with
    | inl e => inl e
    | inr u => inr (u, users)
    end
  else
    match findByAddress users member with
    | Some u => inr (u, users)
    | None =>
        let u := mkUser (new_user_id users) member randomAvatar in
        inr (u, app users [u])
    end.

(** The whole [addMember] request: the workspace list is read (this
    cannot fail: [data] is an array), then [_member] is resolved (which
    may throw, or insert a user), then the workspace [data[0]] is updated
    and saved. *)
Definition addMember_request (wsdb : list Workspace) (users : list User)
    (id member : string) : Response Workspace * (list Workspace * list User) :=
  match resolve_member users member with
  | inl e => (catch_error (inl e), (wsdb, users))
  | inr (_member, users') =>
      let '(r, wsdb') := addMember wsdb id _member in (r, (wsdb', users'))
  end.

End AddMember.

(* ------------------------------------------------------------------ *)
(** ** [authMiddleware] (src/src/modules/user/types.ts) *)

(** JavaScript truthiness of a possibly undefined string. *)
Definition truthy_str (v : option string) : bool :=
  match v with
  | None => false
  | Some s => bool_decide (s <> EmptyString)
  end.

(** What [authMiddleware] attaches to the request. *)
Record AuthContext := mkAuthContext {
  ctx_user : User;
  ctx_userToken : UserToken;
  ctx_workspace : option Workspace;
}.

Section AuthMiddleware.

(** The [TokenUtils] helpers (src/utils, not in the sources): each either
    throws or returns its value; [renewToken] returns the updated table. *)
Variable recoverToken_ : TokenStore -> string -> Exn + UserToken.
Variable renewToken : TokenStore -> UserToken -> Exn + TokenStore.
Variable checkUserExists : string -> Exn + User.
Variable findLoggedWorkspace : UserToken -> Exn + option Workspace.

(** [authMiddleware] on the [authorization] and [signerAddress] headers. *)
Definition authMiddleware (st : TokenStore) (authorization signerAddress : option string)
    : (Exn + AuthContext) * TokenStore :=
  match authorization, signerAddress with
  | Some signature, Some address =>
      if truthy_str authorization && truthy_str signerAddress then
        match recoverToken_ st signature with
        | inl e => (inl e, st)
        | inr token =>
            match renewToken st token with
            | inl e => (inl e, st)
            | inr st1 =>
                match checkUserExists address with
                | inl e => (inl e, st1)
                | inr user =>
                    match findLoggedWorkspace token with
                    | inl e => (inl e, st1)
                    | inr workspace => (inr (mkAuthContext user token workspace), st1)
                    end
                end
            end
        end
      else (inl (Unauthorized MISSING_CREDENTIALS), st)
  | _, _ => (inl (Unauthorized MISSING_CREDENTIALS), st)
  end.

End AuthMiddleware.

(* ------------------------------------------------------------------ *)
(** ** [PredicateService.list] (src/src/modules/predicate/services.ts) *)

Record IPredicateFilterParams := mkPredicateFilter {
  pf_address : option string;
  pf_provider : option string;
  pf_owner : option string;
  pf_signer : option string;
  pf_q : option string;
  pf_workspace : option (list string);
}.

(** The WHERE conditions [list] can put on the query builder. *)
Inductive PredicateCond :=
  | ByPredicateAddress (predicateAddress : string)
  | ByProvider (provider : string)
  | ByOwner (owner : string)
  | BySigner (address : string)
  | ByNameOrDescription (pattern : string).

Record PaginationParams := mkPaginationParams {
  page : option string;
  perPage : option string;
}.

(** The query [list] runs: paginated or [getMany], with its conditions
    (joins and ordering are the same on both paths and not modelled). *)
Inductive PredicateQuery :=
  | Paginated (conds : list PredicateCond) (p : PaginationParams)
  | GetMany (conds : list PredicateCond).

Definition query_conds (q : PredicateQuery) : list PredicateCond :=
  match q with Paginated c _ | GetMany c => c end.

(** TypeORM's [where] replaces every previous WHERE condition;
    [andWhere] adds one. *)
Definition qb_where (c : PredicateCond) (conds : list PredicateCond) : list PredicateCond :=
  [c].
Definition qb_andWhere (c : PredicateCond) (conds : list PredicateCond) : list PredicateCond :=
  app conds [c].

(** [this._filter.x && queryBuilder....]: the call runs when [x] is truthy. *)
Definition when_set (v : option string)
    (k : string -> list PredicateCond -> list PredicateCond)
    (conds : list PredicateCond) : list PredicateCond :=
  match v with
  | Some s => if bool_decide (s <> EmptyString) then k s conds else conds
  | None => conds
  end.

(** [PredicateService.list] with the builder's [_filter] and [_pagination]. *)
Definition predicate_list (filter : option IPredicateFilterParams)
    (pagination : option PaginationParams) : Exn + PredicateQuery :=
  match filter with
  | None => inl (TypeError "Cannot read properties of undefined (reading 'address')")
  | Some f =>
      let conds :=
        when_set (pf_q f) (fun q => qb_andWhere (ByNameOrDescription ("%" +:+ q +:+ "%")))
          (when_set (pf_signer f) (fun s => qb_where (BySigner s))
            (when_set (pf_owner f) (fun o => qb_where (ByOwner o))
              (when_set (pf_provider f) (fun p => qb_where (ByProvider p))
                (when_set (pf_address f) (fun a => qb_where (ByPredicateAddress a)) [])))) in
      match pagination with
      | Some p =>
          if truthy_str (page p) && truthy_str (perPage p)
          then inr (Paginated conds p) else inr (GetMany conds)
      | None => inr (GetMany conds)
      end
  end.

(* ------------------------------------------------------------------ *)
(** ** [PredicateController.list] and [hasReservedCoins] (src/unnamed/part_001) *)

(** The query string of [list] ([orderBy] and [sort] only set the order). *)
Record IListQuery := mkListQuery {
  lq_provider : option string;
  lq_address : option string;
  lq_owner : option string;
  lq_page : option string;
  lq_perPage : option string;
  lq_q : option string;
}.

(** [PredicateController.list]; [singleWorkspace] and [allWk] are the
    results of the two [WorkspaceService] queries of the logged user. *)
Definition PredicateController_list (query : IListQuery) (workspace : Workspace)
    (user : User) (singleWorkspace : option Workspace) (allWk : list string)
    : Response PredicateQuery :=
  match singleWorkspace with
  | None => catch_error (inl (TypeError "Cannot read properties of undefined (reading 'id')"))
  | Some sw =>
      let hasSingle := bool_decide (ws_id sw = ws_id workspace) in
      catch_error
        (predicate_list
           (Some (mkPredicateFilter (lq_address query) (lq_provider query) (lq_owner query)
                    (if hasSingle then Some (user_address user) else None)
                    (lq_q query)
                    (Some (if hasSingle then allWk else [ws_id workspace]))))
           (Some (mkPaginationParams (lq_page query) (lq_perPage query))))
  end.

(** [TransactionStatus] of bsafe. *)
Inductive TransactionStatus :=
  | AWAIT_REQUIREMENTS | PENDING_SENDER | PROCESS_ON_CHAIN
  | SUCCESS | DECLINED | FAILED.

Record Asset := mkAsset { asset_amount : string }.

Record Transaction := mkTransaction {
  tx_status : TransactionStatus;
  tx_assets : list Asset;
}.

Definition is_reserved (t : Transaction) : bool :=
  match tx_status t with
  | AWAIT_REQUIREMENTS | PENDING_SENDER => true
  | _ => false
  end.

Section Reserved.

(** [bn.parseUnits] of fuels: the amount in base units, [None] when it
    throws. *)
Variable parseUnits : string -> option Z.

Definition add_asset (acc : option Z) (asset : Asset) : option Z :=
  x ← acc; v ← parseUnits (asset_amount asset); Some (x + v)%Z.

(** [transaction.assets.reduce(..., bn.parseUnits('0'))] *)
Definition transaction_total (t : Transaction) : option Z :=
  foldl add_asset (parseUnits "0") (tx_assets t).

(** The [.then] callback: filter, then [reduce]; [None] is a throw. *)
Definition reserved_total (txs : list Transaction) : option Z :=
  foldl (fun acc t => x ← acc; s ← transaction_total t; Some (x + s)%Z)
    (parseUnits "0") (List.filter is_reserved txs).

(** [hasReservedCoins]: [listed] is the result of
    [transactionService.filter(...).list()] ([None] when it rejects); any
    rejection is caught and answered with [bn.parseUnits('0')].  [None]
    is a rejection of that fallback too. *)
Definition hasReservedCoins (listed : option (list Transaction)) : option Z :=
  match listed ≫= reserved_total with
  | Some z => Some z
  | None => parseUnits "0"
  end.

End Reserved.

(* ------------------------------------------------------------------ *)
(** ** Sample data *)

Module Samples.

Definition alice : User := mkUser "u1" "0xa1" "avatar-a".
Definition bob : User := mkUser "u2" "0xb2" "avatar-b".

Definition owner_permissions : IPermissions := {[ "OWNER" := ["*"] ]}.
Definition viewer_permissions : IPermissions := {[ "VIEWER" := ["*"] ]}.

(** A stand-in for [defaultPermissions]. *)
Definition defaults (r : PermissionRoles) : IPermissions :=
  match r with
  | OWNER | ADMIN => {[ "ADMIN" := ["*"] ]}
  | MANAGER => {[ "MANAGER" := ["*"] ]}
  | VIEWER => viewer_permissions
  end.

(** Alice's personal workspace, with her entry in the permissions map. *)
Definition w_alice : Workspace :=
  mkWorkspace "w1" "alice" "wa" true alice [alice] {[ "u1" := owner_permissions ]}.

(** Bob's personal workspace. *)
Definition w_bob : Workspace :=
  mkWorkspace "w2" "bob" "wb" true bob [bob] {[ "u2" := owner_permissions ]}.

(** A shared workspace of Alice whose permissions map has no entry for her. *)
Definition w_shared : Workspace :=
  mkWorkspace "w3" "shared" "ws" false alice [alice] ∅.

Definition wsdb : list Workspace := [w_alice; w_bob; w_shared].
Definition users : list User := [alice; bob].

(** A team workspace of Alice where Bob is a member holding [ADMIN]. *)
Definition w_team : Workspace :=
  mkWorkspace "w5" "team" "wt" false alice [alice; bob]
    {[ "u1" := owner_permissions; "u2" := {[ "ADMIN" := ["*"] ]} ]}.

(** Stand-ins for the id and avatar of a created user. *)
Definition new_user_id (users : list User) : string := "u-new".
Definition randomAvatar : string := "avatar-new".

(** A Fuel address (66 characters) that no sample user has. *)
Definition new_address : string :=
  "0x00000000000000000000000000000000000000000000000000000000000000c3".

(** A verifier that accepts every signature. *)
Definition accept_all (_ : option JValue) (_ : string) (_ : option JValue) : bool := true.

Definition sign_in_body (sig : string) (createdAt : Z) : JObject :=
  [("address", JStr "0xa1"); ("user_id", JStr "u1"); ("encoder", JStr "FUEL");
   ("provider", JStr "https://node"); ("createdAt", JNum createdAt);
   ("signature", JStr sig)].


Definition sign_in_body_ws (ws : string) : JObject :=
  [("address", JStr "0xa1"); ("user_id", JStr "u1"); ("encoder", JStr "FUEL");
   ("provider", JStr "https://node"); ("createdAt", JNum 1000);
   ("signature", JStr "sig"); ("workspace_id", JStr ws)].

(** A session of Bob, active in his personal workspace. *)
Definition bob_token : UserToken :=
  mkUserToken 7 (Some (JStr "sig-b")) None None (Some 901000%Z) EmptyString bob
    (Some w_bob).

(** A workspace of Alice where Bob holds an [ADMIN] entry without being a
    member. *)
Definition w_guest : Workspace :=
  mkWorkspace "w4" "guest" "wg" false alice [alice]
    {[ "u1" := owner_permissions; "u2" := {[ "ADMIN" := ["*"] ]} ]}.

(** A session of Alice, active in her personal workspace. *)
Definition alice_token : UserToken :=
  mkUserToken 3 (Some (JStr "sig-a")) None None (Some 901000%Z) EmptyString alice
    (Some w_alice).

(** Stand-ins for the [TokenUtils] helpers. *)
Definition sample_recover (st : TokenStore) (c : string) : Exn + UserToken :=
  match recoverToken st c with Some t => inr t | None => inl NotFound end.
Definition sample_renew (st : TokenStore) (t : UserToken) : Exn + TokenStore := inr st.
Definition sample_checkUser (address : string) : Exn + User :=
  match find (fun u => bool_decide (user_address u = address)) users with
  | Some u => inr u
  | None => inl NotFound
  end.
Definition sample_logged (t : UserToken) : Exn + option Workspace := inr (tk_workspace t).

(** A predicate listing that asks for a predicate address and an owner. *)
Definition list_query : IListQuery :=
  mkListQuery None (Some "0xpred") (Some "0xowner") (Some "1") (Some "10") None.

(** A predicate listing without filters. *)
Definition list_query_all : IListQuery := mkListQuery None None None None None None.

(** A stand-in for [bn.parseUnits] on integral amounts, 9 decimals. *)
Definition units (s : string) : option Z :=
  match take_digits 10 0 0 (utf8_bytes s) with
  | (v, S _, []) => Some (v * 1000000000)%Z
  | _ => None
  end.

Definition units_amount (a : Asset) : Z := default 0%Z (units (asset_amount a)).

Definition pending_tx : Transaction := mkTransaction PENDING_SENDER [mkAsset "3"].

Definition txs : list Transaction :=
  [mkTransaction AWAIT_REQUIREMENTS [mkAsset "1"; mkAsset "2"];
   mkTransaction SUCCESS [mkAsset "5"]; pending_tx].

Definition bad_asset : Asset := mkAsset "abc".
Definition bad_tx : Transaction := mkTransaction PENDING_SENDER [mkAsset "1"; bad_asset].
Definition bad_txs : list Transaction := [mkTransaction AWAIT_REQUIREMENTS [mkAsset "4"]; bad_tx].

End Samples.

(* ------------------------------------------------------------------ *)
(** ** Helper lemmas *)

Section NumberLemmas.
Local Open Scope Z_scope.

Lemma div_eucl_fst a b : fst (Z.div_eucl a b) = a / b.
Proof. unfold Z.div. by destruct (Z.div_eucl a b). Qed.
Lemma div_eucl_pair a b : Z.div_eucl a b = (a / b, a mod b).
Proof. unfold Z.div, Z.modulo. by destruct (Z.div_eucl a b). Qed.

(** Shape of [round_binary64] on an integer [n >= 1]: the exponent is
    [log2 n - 52]. *)
Lemma round_int_exponent (negative : bool) (n : Z) :
  1 <= n ->
  round_binary64 negative n 1 =
  let k := Z.log2 n - 52 in
  let '(q, r) := if 0 <=? k then (n / 2 ^ k, n mod 2 ^ k) else (n * 2 ^ (- k), 0) in
  let q := match Z.compare (2 * r) (if 0 <=? k then 2 ^ k else 1) with
           | Lt => q
           | Gt => q + 1
           | Eq => if Z.even q then q else q + 1
           end in
  let '(q, e) := if q =? 2 ^ 53 then (2 ^ 52, k + 1) else (q, k) in
  if 971 <? e then Infinity negative
  else Finite (if negative then - q else q) e.
Proof.
  intros Hn. unfold round_binary64. cbv zeta.
  rewrite Z.log2_1, Z.sub_0_r.
  pose proof (Z.log2_spec n ltac:(lia)) as [Hlo Hhi].
  pose proof (Z.log2_nonneg n).
  set (k := Z.log2 n - 52).
  assert (Hq : (fst (if 0 <=? k then Z.div_eucl n (1 * 2 ^ k)
                     else Z.div_eucl (n * 2 ^ (- k)) 1) <? 2 ^ 52) = false).
  { apply Z.ltb_ge.
    destruct (0 <=? k) eqn:Hk; rewrite div_eucl_fst.
    - apply Z.leb_le in Hk. rewrite Z.mul_1_l.
      apply Z.div_le_lower_bound; [lia|].
      rewrite <- Z.pow_add_r by lia.
      replace (k + 52) with (Z.log2 n) by (unfold k; lia). lia.
    - apply Z.leb_gt in Hk. rewrite Z.div_1_r.
      transitivity (2 ^ Z.log2 n * 2 ^ (- k)).
      + rewrite <- Z.pow_add_r by lia. apply Z.pow_le_mono_r; lia.
      + apply Z.mul_le_mono_nonneg_r; [lia|]. lia. }
  rewrite Hq.
  replace (Z.max k (-1074)) with k by lia.
  destruct (0 <=? k) eqn:Hk.
  - rewrite Z.mul_1_l, div_eucl_pair. reflexivity.
  - rewrite div_eucl_pair, Z.div_1_r, Z.mod_1_r. reflexivity.
Qed.

Lemma round_int_exact (negative : bool) (n c k : Z) :
  1 <= n -> k = Z.log2 n - 52 -> k <= 971 ->
  (if 0 <=? k then n = c * 2 ^ k else c = n * 2 ^ (- k)) ->
  round_binary64 negative n 1 = Finite (if negative then - c else c) k.
Proof.
  intros Hn Hk Hmax Hc. rewrite round_int_exponent by done. cbv zeta.
  rewrite <- Hk.
  pose proof (Z.log2_spec n ltac:(lia)) as [Hlo Hhi].
  pose proof (Z.log2_nonneg n).
  destruct (0 <=? k) eqn:Hk0.
  - apply Z.leb_le in Hk0.
    assert (Hq : n / 2 ^ k = c).
    { rewrite Hc. apply Z.div_mul. apply Z.pow_nonzero; lia. }
    assert (Hr : n mod 2 ^ k = 0).
    { rewrite Hc. apply Z.mod_mul. apply Z.pow_nonzero; lia. }
    assert (HP : 0 < 2 ^ k) by (apply Z.pow_pos_nonneg; lia).
    assert (Hc53 : c < 2 ^ 53).
    { apply (Z.mul_lt_mono_pos_r (2 ^ k)); [apply Z.pow_pos_nonneg; lia|].
      rewrite <- Hc, <- Z.pow_add_r by lia.
      replace (53 + k) with (Z.succ (Z.log2 n)) by lia. exact Hhi. }
    rewrite Hq, Hr. destruct (2 ^ k) as [|p|p]; [lia| |lia]. cbn -[Z.pow].
    rewrite Z.mul_0_r. change (0 ?= Z.pos p) with Lt. cbv iota beta.
    rewrite (proj2 (Z.eqb_neq c (2 ^ 53))) by lia.
    rewrite (proj2 (Z.ltb_ge 971 k)) by lia. reflexivity.
  - apply Z.leb_gt in Hk0. subst c. cbn -[Z.pow Z.mul].
    assert (Hc53 : n * 2 ^ (- k) < 2 ^ 53).
    { apply (Z.lt_le_trans _ (2 ^ Z.succ (Z.log2 n) * 2 ^ (- k))).
      - apply Z.mul_lt_mono_pos_r; [apply Z.pow_pos_nonneg; lia|exact Hhi].
      - rewrite <- Z.pow_add_r by lia. apply Z.pow_le_mono_r; lia. }
    rewrite Z.mul_0_r. change (0 ?= 1) with Lt. cbv iota beta.
    rewrite (proj2 (Z.eqb_neq (n * 2 ^ (- k)) (2 ^ 53))) by lia.
    rewrite (proj2 (Z.ltb_ge 971 k)) by lia. reflexivity.
Qed.

Lemma round_int_large (negative : bool) (n : Z) :
  1 <= n -> 53 <= Z.log2 n ->
  round_binary64 negative n 1 = Infinity negative \/
  exists q e, round_binary64 negative n 1 = Finite (if negative then - q else q) e /\
    2 ^ 52 <= q /\ Z.log2 n - 52 <= e.
Proof.
  intros Hn HL. rewrite round_int_exponent by done. cbv zeta.
  pose proof (Z.log2_spec n ltac:(lia)) as [Hlo Hhi].
  set (k := Z.log2 n - 52).
  rewrite (proj2 (Z.leb_le 0 k)) by lia.
  assert (Hq : 2 ^ 52 <= n / 2 ^ k).
  { apply Z.div_le_lower_bound; [apply Z.pow_pos_nonneg; lia|].
    rewrite <- Z.pow_add_r by lia.
    replace (k + 52) with (Z.log2 n) by (unfold k; lia). lia. }
  set (q := n / 2 ^ k) in *.
  set (q1 := match Z.compare (2 * (n mod 2 ^ k)) (2 ^ k) with
             | Lt => q | Gt => q + 1 | Eq => if Z.even q then q else q + 1 end).
  assert (Hq1 : 2 ^ 52 <= q1).
  { unfold q1. destruct (Z.compare _ _); [destruct (Z.even q)|..]; lia. }
  destruct (q1 =? 2 ^ 53); destruct (971 <? _); [left; done|right|left; done|right];
    do 2 eexists; (split; [reflexivity|]); lia.
Qed.

Lemma round_exact_int (m j : Z) :
  0 < Z.abs m <= 2 ^ 53 -> 0 <= j <= 900 ->
  exists c k, round_dyadic (m * 2 ^ j) 0 = Finite c k /\ truncate c k = m * 2 ^ j /\
    (if 0 <=? k then Z.abs c * 2 ^ k = Z.abs (m * 2 ^ j)
     else Z.abs c = Z.abs (m * 2 ^ j) * 2 ^ (- k)).
Proof.
  intros Hm Hj.
  assert (HP : 0 < 2 ^ j) by (apply Z.pow_pos_nonneg; lia).
  set (n := Z.abs m * 2 ^ j).
  assert (Habs : Z.abs (m * 2 ^ j) = n) by (unfold n; rewrite Z.abs_mul, (Z.abs_eq (2 ^ j)); lia).
  assert (Hn : 1 <= n) by (unfold n; nia).
  assert (HL : Z.log2 n = j + Z.log2 (Z.abs m)) by (apply Z.log2_mul_pow2; lia).
  pose proof (Z.log2_spec (Z.abs m) ltac:(lia)) as [Hlo Hhi].
  assert (Hlm : Z.log2 (Z.abs m) <= 53).
  { rewrite <- (Z.log2_pow2 53) by lia. apply Z.log2_le_mono; lia. }
  set (k := Z.log2 n - 52).
  assert (Hsign : (m * 2 ^ j <? 0) = (m <? 0)).
  { destruct (m <? 0) eqn:E; [apply Z.ltb_lt in E|apply Z.ltb_ge in E];
      [apply Z.ltb_lt|apply Z.ltb_ge]; nia. }
  (* the quotient [c] of [n] at the exponent [k] *)
  destruct (Z_le_gt_dec 0 k) as [Hk0|Hk0].
  - assert (Hdiv : exists c, n = c * 2 ^ k /\ 0 < c).
    { destruct (Z.eq_dec (Z.log2 (Z.abs m)) 53) as [H53|H53].
      - exists (2 ^ 52). split; [|lia].
        assert (Z.abs m = 2 ^ 53).
        { apply Z.le_antisymm; [lia|]. rewrite <- H53. exact Hlo. }
        unfold n. rewrite H, <- !Z.pow_add_r by lia. f_equal. lia.
      - exists (Z.abs m * 2 ^ (j - k)). split; [|nia].
        unfold n. rewrite <- Z.mul_assoc, <- Z.pow_add_r by lia. do 2 f_equal. lia. }
    destruct Hdiv as (c & Hc & Hcpos).
    exists (if m <? 0 then - c else c), k.
    split; [|split].
    + unfold round_dyadic. rewrite (proj2 (Z.eqb_neq _ 0)) by nia. simpl Z.leb. cbv iota.
      rewrite Z.mul_1_r, Hsign, Habs.
      apply round_int_exact; [done|done| |].
      * unfold k. rewrite HL. lia.
      * rewrite (proj2 (Z.leb_le 0 k)) by lia. exact Hc.
    + unfold truncate. rewrite (proj2 (Z.leb_le 0 k)) by lia.
      destruct (m <? 0) eqn:E; [apply Z.ltb_lt in E|apply Z.ltb_ge in E];
        rewrite ?Z.mul_opp_l, <- Hc; unfold n; lia.
    + rewrite (proj2 (Z.leb_le 0 k)) by lia. rewrite Habs, Hc.
      destruct (m <? 0); lia.
  - exists (if m <? 0 then - (n * 2 ^ (- k)) else n * 2 ^ (- k)), k.
    assert (HQ : 0 < 2 ^ (- k)) by (apply Z.pow_pos_nonneg; lia).
    split; [|split].
    + unfold round_dyadic. rewrite (proj2 (Z.eqb_neq _ 0)) by nia. simpl Z.leb. cbv iota.
      rewrite Z.mul_1_r, Hsign, Habs.
      apply round_int_exact; [done|done|unfold k; rewrite HL; lia|].
      rewrite (proj2 (Z.leb_gt 0 k)) by lia. reflexivity.
    + unfold truncate. rewrite (proj2 (Z.leb_gt 0 k)) by lia.
      destruct (m <? 0) eqn:E; [apply Z.ltb_lt in E|apply Z.ltb_ge in E].
      * rewrite Z.quot_opp_l, Z.quot_mul by lia. unfold n. lia.
      * rewrite Z.quot_mul by lia. unfold n. lia.
    + rewrite (proj2 (Z.leb_gt 0 k)) by lia. rewrite Habs.
      destruct (m <? 0); rewrite ?Z.abs_opp, Z.abs_eq; nia.
Qed.

Lemma round_large_int (z : Z) :
  2 ^ 53 < Z.abs z ->
  round_dyadic z 0 = Infinity (z <? 0) \/
  exists c k, round_dyadic z 0 = Finite c k /\ 2 ^ 52 <= Z.abs c /\
    Z.log2 (Z.abs z) - 52 <= k.
Proof.
  intros Hz. pose proof (Z.pow_pos_nonneg 2 53 ltac:(lia) ltac:(lia)) as H53.
  unfold round_dyadic.
  rewrite (proj2 (Z.eqb_neq z 0)) by lia. simpl Z.leb. cbv iota. rewrite Z.mul_1_r.
  assert (HL : 53 <= Z.log2 (Z.abs z)).
  { apply Z.log2_le_pow2; lia. }
  destruct (round_int_large (z <? 0) (Z.abs z) ltac:(lia) HL) as [H|(q & e & H & Hq & He)].
  - by left.
  - right. exists (if z <? 0 then - q else q), e. split; [done|].
    split; [destruct (z <? 0); lia|done].
Qed.

Lemma new_Date_round_int (z : Z) :
  new_Date (round_dyadic z 0) = if max_time <? Z.abs z then None else Some z.
Proof.
  unfold max_time.
  destruct (Z.eq_dec z 0) as [->|Hz]; [reflexivity|].
  destruct (Z_le_gt_dec (Z.abs z) (2 ^ 53)) as [Hs|Hl].
  - assert (Hm : 0 < Z.abs z <= 2 ^ 53). { split; [apply Z.abs_pos; exact Hz|exact Hs]. }
    destruct (round_exact_int z 0 Hm ltac:(lia)) as (c & k & Hr & Ht & Hv).
    change (2 ^ 0) with 1 in Hr, Ht, Hv. rewrite Z.mul_1_r in Hr, Ht, Hv. rewrite Hr. unfold new_Date, max_time. rewrite Ht.
    destruct (0 <=? k) eqn:Hk.
    + by rewrite Hv.
    + apply Z.leb_gt in Hk. rewrite Hv.
      assert (HQ : 0 < 2 ^ (- k)) by (apply Z.pow_pos_nonneg; lia).
      destruct (8640000000000000 <? Z.abs z) eqn:E.
      * apply Z.ltb_lt in E. rewrite (proj2 (Z.ltb_lt _ _)); [done|].
        apply Z.mul_lt_mono_pos_r; lia.
      * apply Z.ltb_ge in E. rewrite (proj2 (Z.ltb_ge _ _)); [done|].
        apply Z.mul_le_mono_pos_r; lia.
  - rewrite (proj2 (Z.ltb_lt _ _)) by lia.
    destruct (round_large_int z ltac:(lia)) as [->|(c & k & -> & Hc & Hk)]; [done|].
    assert (HL : 53 <= Z.log2 (Z.abs z)) by (apply Z.log2_le_pow2; lia).
    unfold new_Date, max_time. rewrite (proj2 (Z.leb_le 0 k)) by lia.
    rewrite (proj2 (Z.ltb_lt _ _)); [done|].
    apply (Z.lt_le_trans _ (2 ^ 52 * 2 ^ 1)); [reflexivity|].
    apply Z.mul_le_mono_nonneg; [lia|done|lia|apply Z.pow_le_mono_r; lia].
Qed.

Lemma toInteger_round_huge (z : Z) :
  2 ^ 58 <= Z.abs z ->
  toInteger (round_dyadic z 0) = Infinity (z <? 0) \/
  exists p, toInteger (round_dyadic z 0) = Finite p 0 /\ 2 ^ 58 <= Z.abs p.
Proof.
  intros Hz.
  assert (HL : 58 <= Z.log2 (Z.abs z)) by (apply Z.log2_le_pow2; lia).
  destruct (round_large_int z ltac:(lia)) as [->|(c & k & -> & Hc & Hk)]; [by left|].
  right. eexists. split; [reflexivity|]. unfold truncate.
  rewrite (proj2 (Z.leb_le 0 k)) by lia. rewrite Z.abs_mul, (Z.abs_eq (2 ^ k)) by lia.
  apply (Z.le_trans _ (2 ^ 52 * 2 ^ 6)); [reflexivity|].
  apply Z.mul_le_mono_nonneg; [lia|done|lia|apply Z.pow_le_mono_r; lia].
Qed.

Lemma toDate_Some (c : option JValue) (t : Z) :
  toDate c = Some t <-> exists T, c = Some (JNum T) /\ Z.abs T <= max_time /\ t = T.
Proof.
  split.
  - destruct c as [[s|T]|]; cbn [toDate]; try discriminate.
    unfold number_value. rewrite new_Date_round_int. destruct (max_time <? Z.abs T) eqn:E; [discriminate|].
    apply Z.ltb_ge in E. intros [= <-]. by exists T.
  - intros (T & -> & HT & ->). cbn [toDate]. unfold number_value. rewrite new_Date_round_int.
    by rewrite (proj2 (Z.ltb_ge _ _)) by lia.
Qed.

Lemma toInteger_Finite (a : JSNumber) (n e : Z) :
  toInteger a = Finite n e -> e = 0.
Proof. destruct a; simpl; congruence. Qed.

Lemma minutes_ms (a : JSNumber) :
  (exists n, toInteger a = Finite n 0 /\
     toInteger (js_mul (toInteger a) (Finite 60000 0)) = Finite (n * 60000) 0) \/
  ((forall n e, toInteger a = Finite n e -> 2 ^ 58 <= Z.abs (n * 60000)) /\
   (toInteger (js_mul (toInteger a) (Finite 60000 0)) = NaN \/
    (exists b, toInteger (js_mul (toInteger a) (Finite 60000 0)) = Infinity b) \/
    exists p, toInteger (js_mul (toInteger a) (Finite 60000 0)) = Finite p 0 /\
      2 ^ 58 <= Z.abs p)).
Proof.
  assert (H58 : 2 ^ 58 = 288230376151711744) by reflexivity.
  assert (H53 : 2 ^ 53 = 9007199254740992) by reflexivity.
  destruct (toInteger a) as [|b|n e] eqn:Ha.
  - right. split; [intros ? ? ?; discriminate|]. by left.
  - right. split; [intros ? ? ?; discriminate|]. right; left. eexists; reflexivity.
  - pose proof (toInteger_Finite a n e Ha) as ->.
    destruct (Z.eq_dec n 0) as [->|Hn].
    { left. exists 0. split; [done|reflexivity]. }
    destruct (Z_le_gt_dec (Z.abs (n * 1875)) (2 ^ 53)) as [Hs|Hl].
    + left. exists n. split; [done|].
      assert (Hm : 0 < Z.abs (n * 1875) <= 2 ^ 53) by lia.
      destruct (round_exact_int (n * 1875) 5 Hm ltac:(lia)) as (c & k & Hr & Ht & _).
      change (js_mul (Finite n 0) (Finite 60000 0)) with (round_dyadic (n * 60000) 0).
      assert (E : n * 60000 = n * 1875 * 2 ^ 5) by (simpl; lia).
      rewrite E, Hr. simpl. by rewrite Ht.
    + right. split.
      { intros n' e' [= <- <-]. lia. }
      change (js_mul (Finite n 0) (Finite 60000 0)) with (round_dyadic (n * 60000) 0).
      destruct (toInteger_round_huge (n * 60000) ltac:(lia)) as [->|(p & -> & Hp)].
      * right; left. by eexists.
      * right; right. by exists p.
Qed.

Lemma js_add_finite_int (t p : Z) :
  js_add (Finite t 0) (Finite p 0) = round_dyadic (t + p) 0.
Proof.
  unfold js_add. rewrite Z.min_id, Z.sub_diag, Z.pow_0_r, !Z.mul_1_r. reflexivity.
Qed.

Lemma addMinutes_Some (c : option JValue) (a : JSNumber) (x : Z) :
  addMinutes c a = Some x <->
  exists T n, c = Some (JNum T) /\ toInteger a = Finite n 0 /\
    Z.abs T <= max_time /\ x = T + n * 60000 /\ Z.abs x <= max_time.
Proof.
  assert (H58 : 2 ^ 58 = 288230376151711744) by reflexivity.
  unfold addMinutes, addMilliseconds.
  destruct (minutes_ms a) as [(n & Ha & ->)|(Hbig & HM)].
  - destruct (toDate c) as [t|] eqn:Ht.
    + pose proof (proj1 (toDate_Some c t) Ht) as (T & Hc & HT & ->).
      simpl getTime. rewrite js_add_finite_int, new_Date_round_int.
      destruct (max_time <? Z.abs (T + n * 60000)) eqn:E;
        [apply Z.ltb_lt in E|apply Z.ltb_ge in E]; split.
      * discriminate.
      * intros (T' & n' & Hc' & Ha' & _ & -> & Hx).
        rewrite Hc in Hc'. rewrite Ha in Ha'. injection Hc' as <-. injection Ha' as <-. lia.
      * intros [= <-]. by exists T, n.
      * intros (T' & n' & Hc' & Ha' & _ & -> & Hx).
        rewrite Hc in Hc'. rewrite Ha in Ha'. injection Hc' as <-. injection Ha' as <-. done.
    + simpl getTime. simpl js_add. split; [discriminate|].
      intros (T & n' & Hc & _ & HT & _). 
      assert (toDate c = Some T) as Hs by (apply toDate_Some; by exists T).
      congruence.
  - assert (HN : new_Date (js_add (getTime (toDate c))
                   (toInteger (js_mul (toInteger a) (Finite 60000 0)))) = None).
    { destruct (toDate c) as [t|] eqn:Ht; [|reflexivity].
      pose proof (proj1 (toDate_Some c t) Ht) as (T & Hc & HT & ->).
      destruct HM as [->|[(b & ->)|(p & -> & Hp)]]; [reflexivity|reflexivity|].
      simpl getTime. rewrite js_add_finite_int, new_Date_round_int.
      unfold max_time in *. rewrite (proj2 (Z.ltb_lt _ _)) by lia. reflexivity. }
    rewrite HN. split; [discriminate|].
    intros (T & n & _ & Ha & HT & -> & Hx).
    pose proof (Hbig n 0 Ha). unfold max_time in *. lia.
Qed.

End NumberLemmas.

Lemma find_app_none {A} (f : A -> bool) (l : list A) (x : A) :
  find f l = None -> find f (app l [x]) = if f x then Some x else None.
Proof.
  induction l as [|y l IH]; simpl; [done|].
  destruct (f y); [discriminate|]. exact IH.
Qed.

Lemma find_none_elem {A} (f : A -> bool) (l : list A) (x : A) :
  find f l = None -> x ∈ l -> f x = false.
Proof.
  intros Hn Hx. apply (find_none f l); [done|]. by apply list_elem_of_In.
Qed.

Lemma load_workspace_save (wsdb : list Workspace) (id : string) (w w' : Workspace) :
  load_workspace wsdb id = Some w -> ws_id w' = id ->
  load_workspace (save_workspace wsdb w') id = Some w'.
Proof.
  unfold load_workspace, first_workspace, save_workspace.
  intros Hl Hid. induction wsdb as [|r rest IH]; simpl in *; [discriminate|].
  case_bool_decide as Hr.
  - rewrite decide_True by congruence. simpl. by rewrite bool_decide_true.
  - rewrite decide_False by congruence. simpl. rewrite bool_decide_false by done.
    by apply IH.
Qed.

Lemma load_workspace_id (wsdb : list Workspace) (id : string) (w : Workspace) :
  load_workspace wsdb id = Some w -> ws_id w = id.
Proof.
  unfold load_workspace, first_workspace. intros H.
  apply find_some in H as [_ H]. by apply bool_decide_eq_true in H.
Qed.

(* ------------------------------------------------------------------ *)
(** ** The authorization gate *)

(** C1 (counterexample): a request by the owner of [w_shared] that requires
    [ADMIN] is rejected with [MISSING_PERMISSION], because the permissions
    map has no entry for the owner, even when [validatePermissionGeneral]
    would accept everything. *)
Lemma gate_rejects_owner_without_entry :
  authPermissionMiddleware (fun _ _ _ => true) (Some [ADMIN])
    (Some Samples.alice) (Some Samples.w_shared) = Reject MISSING_PERMISSION.
Proof. reflexivity. Qed.

(** C1 (amended): the gate gives the owner no implicit capability.  For a
    non-empty required set, a request by the workspace owner is admitted
    exactly when the permissions map has an entry keyed by the owner's id
    and [validatePermissionGeneral] accepts; with no such entry it is
    rejected with [MISSING_PERMISSION]. *)
Theorem gate_owner_needs_permission_entry
    (validatePermissionGeneral : Workspace -> string -> list PermissionRoles -> bool)
    (p : PermissionRoles) (ps : list PermissionRoles) (u : User) (w : Workspace) :
  user_id u = user_id (ws_owner w) ->
  (authPermissionMiddleware validatePermissionGeneral (Some (p :: ps)) (Some u) (Some w) = Next
   <-> is_Some (ws_permissions w !! user_id u)
       /\ validatePermissionGeneral w (user_id u) (p :: ps) = true)
  /\ (ws_permissions w !! user_id u = None ->
      authPermissionMiddleware validatePermissionGeneral (Some (p :: ps)) (Some u) (Some w)
      = Reject MISSING_PERMISSION).
Proof.
  intros _. simpl. split.
  - destruct (ws_permissions w !! user_id u) as [e|]; simpl.
    + destruct (validatePermissionGeneral w (user_id u) (p :: ps)).
      * split; [|done]. intros _. split; [by eexists|done].
      * split; [discriminate|]. by intros [_ ?].
    + split; [discriminate|]. intros [[? ?] _]. discriminate.
  - by intros ->.
Qed.

Lemma gate_owner_needs_permission_entry_witness :
  user_id Samples.alice = user_id (ws_owner Samples.w_shared) /\
  authPermissionMiddleware (fun _ _ _ => true) (Some [ADMIN])
    (Some Samples.alice) (Some Samples.w_shared) = Reject MISSING_PERMISSION.
Proof.
  split; [reflexivity|].
  apply (proj2 (gate_owner_needs_permission_entry (fun _ _ _ => true) ADMIN []
                  Samples.alice Samples.w_shared eq_refl)).
  reflexivity.
Defined.

(** C9 (counterexample): with an empty required set the gate admits a
    request whose context has neither a user nor a workspace. *)
Lemma gate_empty_requirement_admits_without_context :
  authPermissionMiddleware (fun _ _ _ => false) (Some []) None None = Next.
Proof. reflexivity. Qed.

(** C9 (amended): with an absent or empty required set the gate admits
    every request without consulting the user or the workspace; with a
    non-empty required set it rejects with [MISSING_CREDENTIALS] when the
    user or the workspace is absent from the request context. *)
Theorem gate_missing_credentials_only_when_required
    (validatePermissionGeneral : Workspace -> string -> list PermissionRoles -> bool) :
  (forall u w, authPermissionMiddleware validatePermissionGeneral None u w = Next) /\
  (forall u w, authPermissionMiddleware validatePermissionGeneral (Some []) u w = Next) /\
  (forall p ps w, authPermissionMiddleware validatePermissionGeneral (Some (p :: ps)) None w
                  = Reject MISSING_CREDENTIALS) /\
  (forall p ps u, authPermissionMiddleware validatePermissionGeneral (Some (p :: ps)) u None
                  = Reject MISSING_CREDENTIALS).
Proof.
  repeat split; intros; simpl; try done.
  by destruct u.
Qed.

(* ------------------------------------------------------------------ *)
(** ** Permissions and members *)

(** C7: a permission change or a member removal whose target is the
    workspace owner fails with an [Unauthorized] error and leaves the
    workspace table, and so the members and the permissions map, unchanged. *)
Theorem owner_is_not_a_target (wsdb : list Workspace) (id : string) (w : Workspace)
    (permissions : IPermissions) :
  load_workspace wsdb id = Some w ->
  updatePermissions wsdb id (user_id (ws_owner w)) permissions
    = (error_response (Some (Unauthorized MISSING_PERMISSION)), wsdb) /\
  removeMember wsdb id (user_id (ws_owner w))
    = (error_response (Some (Unauthorized MISSING_PERMISSION)), wsdb).
Proof.
  intros Hl. unfold updatePermissions, updatePermissions_try,
    removeMember, removeMember_try. rewrite Hl.
  rewrite !decide_True by done. done.
Qed.

Lemma owner_is_not_a_target_witness :
  load_workspace Samples.wsdb "w3" = Some Samples.w_shared /\
  removeMember Samples.wsdb "w3" "u1"
    = (error_response (Some (Unauthorized MISSING_PERMISSION)), Samples.wsdb).
Proof.
  split; [reflexivity|].
  exact (proj2 (owner_is_not_a_target Samples.wsdb "w3" Samples.w_shared ∅ eq_refl)).
Defined.

(** Removing a member other than the owner, then adding the same user
    back once resolved. *)
Lemma removeMember_then_addMember
    (defaultPermissions : PermissionRoles -> IPermissions)
    (wsdb : list Workspace) (id m : string) (w : Workspace) (u : User)
    (r1 : Response Workspace) (db1 : list Workspace)
    (r2 : Response Workspace) (db2 : list Workspace) :
  load_workspace wsdb id = Some w ->
  user_id (ws_owner w) <> m ->
  user_id u = m ->
  removeMember wsdb id m = (r1, db1) ->
  addMember defaultPermissions db1 id u = (r2, db2) ->
  (exists w1, load_workspace db1 id = Some w1 /\
     Forall (fun x => user_id x <> m) (ws_members w1) /\
     ws_permissions w1 !! m = None) /\
  (exists w2, load_workspace db2 id = Some w2 /\
     u ∈ ws_members w2 /\
     ws_permissions w2 !! m = Some (defaultPermissions VIEWER)).
Proof.
  intros Hl Hown Hu Hrm Hadd.
  unfold removeMember, removeMember_try in Hrm. rewrite Hl in Hrm.
  rewrite decide_False in Hrm by done.
  injection Hrm as <- <-.
  set (w1 := with_permissions _ _) in *.
  assert (Hl1 : load_workspace (save_workspace wsdb w1) id = Some w1).
  { apply (load_workspace_save _ _ w); [done|]. by apply load_workspace_id in Hl. }
  assert (Hnm : Forall (fun x => user_id x <> m) (ws_members w1)).
  { simpl. apply Forall_forall. intros x Hx.
    apply list_elem_of_In, filter_In in Hx as [_ Hx]. by apply negb_true_iff, bool_decide_eq_false in Hx. }
  split.
  { exists w1. split; [done|]. split; [done|]. simpl. apply lookup_delete_eq. }
  unfold addMember, addMember_try in Hadd. rewrite Hl1 in Hadd.
  assert (Hex : existsb (fun x => bool_decide (user_id x = user_id u)) (ws_members w1) = false).
  { apply not_true_iff_false. intros Hb. apply existsb_exists in Hb as (x & Hx & Hb).
    apply bool_decide_eq_true in Hb. rewrite Forall_forall in Hnm.
    apply (Hnm x); [by apply list_elem_of_In|]. congruence. }
  rewrite Hex in Hadd. injection Hadd as <- <-.
  eexists. split.
  - apply (load_workspace_save _ _ w1); [done|]. simpl. by apply load_workspace_id in Hl.
  - simpl. split.
    + apply elem_of_app. right. by left.
    + rewrite Hu. apply lookup_insert_eq.
Qed.

(** C8: removing a member other than the owner drops the membership and
    the member's permissions entry; a following [addMember] request whose
    [member] parameter resolves to the same user (by id, or by address)
    adds the user back with the [VIEWER] default permissions, not the
    entry held before. *)
Theorem remove_then_add_gives_viewer
    (defaultPermissions : PermissionRoles -> IPermissions)
    (new_user_id : list User -> string) (randomAvatar : string)
    (wsdb : list Workspace) (users : list User) (id m member : string)
    (w : Workspace) (u : User) (users' : list User)
    (r1 : Response Workspace) (db1 : list Workspace)
    (r2 : Response Workspace) (db2 : list Workspace) (users2 : list User) :
  load_workspace wsdb id = Some w ->
  user_id (ws_owner w) <> m ->
  removeMember wsdb id m = (r1, db1) ->
  resolve_member new_user_id randomAvatar users member = inr (u, users') ->
  user_id u = m ->
  addMember_request defaultPermissions new_user_id randomAvatar db1 users id member
  = (r2, (db2, users2)) ->
  (exists w1, load_workspace db1 id = Some w1 /\
     Forall (fun x => user_id x <> m) (ws_members w1) /\
     ws_permissions w1 !! m = None) /\
  (exists w2, load_workspace db2 id = Some w2 /\
     u ∈ ws_members w2 /\
     ws_permissions w2 !! m = Some (defaultPermissions VIEWER)).
Proof.
  intros Hl Hown Hrm Hres Hu Hadd.
  unfold addMember_request in Hadd. rewrite Hres in Hadd.
  destruct (addMember defaultPermissions db1 id u) as [r2' db2'] eqn:Ha.
  injection Hadd as <- <- <-.
  exact (removeMember_then_addMember defaultPermissions wsdb id m w u r1 db1 r2' db2'
           Hl Hown Hu Hrm Ha).
Qed.

Lemma remove_then_add_gives_viewer_witness :
  exists r1 db1 r2 db2 users2,
    removeMember [Samples.w_team] "w5" "u2" = (r1, db1) /\
    addMember_request Samples.defaults Samples.new_user_id Samples.randomAvatar
      db1 Samples.users "w5" "u2" = (r2, (db2, users2)) /\
    ws_permissions Samples.w_team !! "u2" = Some {[ "ADMIN" := ["*"] ]} /\
    ((exists w1, load_workspace db1 "w5" = Some w1 /\
       Forall (fun x => user_id x <> "u2") (ws_members w1) /\
       ws_permissions w1 !! "u2" = None) /\
     (exists w2, load_workspace db2 "w5" = Some w2 /\
       Samples.bob ∈ ws_members w2 /\
       ws_permissions w2 !! "u2" = Some (Samples.defaults VIEWER))).
Proof.
  do 5 eexists. split; [reflexivity|]. split; [reflexivity|]. split; [reflexivity|].
  eapply (remove_then_add_gives_viewer Samples.defaults Samples.new_user_id
           Samples.randomAvatar [Samples.w_team] Samples.users "w5" "u2" "u2"
           Samples.w_team Samples.bob Samples.users);
    [reflexivity | discriminate | reflexivity | reflexivity | reflexivity | reflexivity].
Defined.


(* ------------------------------------------------------------------ *)
(** ** Sign-in *)

Lemma signIn_outcome verifySignature TOKEN_EXPIRATION_TIME wsdb users st body r st' :
  signIn verifySignature TOKEN_EXPIRATION_TIME wsdb users st body = (r, st') ->
  match r with
  | inl _ => (forall t, t ∈ st' -> t ∈ st)
  | inr tk =>
      exists st1 : TokenStore,
        st' = app st1 [tk] /\
        (forall t, t ∈ st1 -> t ∈ st) /\
        (forall t, t ∈ st1 -> user_id (tk_user t) <> user_id (tk_user tk)) /\
        Some (JStr (user_id (tk_user tk))) = get body "user_id" /\
        tk_token tk = get body "signature" /\
        tk_expired_at tk = addMinutes (get body "createdAt")
                             (js_Number (default "15" TOKEN_EXPIRATION_TIME))
  end.
Proof.
  unfold signIn.
  destruct (verifySignature _ _ _); simpl;
    [|intros H; by injection H as <- <-].
  destruct (findOne users (get body "user_id")) as [e|user] eqn:Hu.
  - intros H; injection H as <- <-. intros t.
    destruct (findToken st _); [|done].
    unfold signOut. rewrite !list_elem_of_In, filter_In. tauto.
  - unfold findOne in Hu.
    destruct (find _ users) as [u'|] eqn:Hf; [|discriminate].
    injection Hu as <-. apply find_some in Hf as [_ Hf].
    apply bool_decide_eq_true in Hf.
    intros H; injection H as <- <-.
    eexists. split; [reflexivity|]. simpl.
    destruct (findToken st (get body "user_id")) as [t0|] eqn:Ht.
    + unfold findToken in Ht. apply find_some in Ht as [_ Ht].
      apply bool_decide_eq_true in Ht.
      unfold signOut. split; [|split; [|done]].
      * intros t. rewrite !list_elem_of_In, filter_In. tauto.
      * intros t. rewrite list_elem_of_In, filter_In. intros [_ Hne] Heq.
        apply negb_true_iff, bool_decide_eq_false in Hne. apply Hne.
        rewrite Heq. congruence.
    + split; [done|]. split; [|done].
      intros t Hin Heq. unfold findToken in Ht.
      pose proof (find_none_elem _ _ t Ht Hin) as Hfalse.
      apply bool_decide_eq_false in Hfalse. apply Hfalse. rewrite Heq. congruence.
Qed.

Lemma signIn_keeps_single_session verifySignature TOKEN_EXPIRATION_TIME wsdb users st body r st' :
  at_most_one_session st ->
  signIn verifySignature TOKEN_EXPIRATION_TIME wsdb users st body = (r, st') ->
  at_most_one_session st'.
Proof.
  intros Hinv H. apply signIn_outcome in H. destruct r as [e|tk].
  - intros t1 t2 H1 H2. apply Hinv; auto.
  - destruct H as (st1 & -> & Hsub & Hnot & _).
    intros t1 t2 H1 H2 Heq.
    apply elem_of_app in H1 as [H1|H1%list_elem_of_singleton];
    apply elem_of_app in H2 as [H2|H2%list_elem_of_singleton]; subst.
    + apply Hinv; auto.
    + by destruct (Hnot t1 H1).
    + by destruct (Hnot t2 H2).
    + done.
Qed.

Lemma string_app_cons (c : ascii) (s t : string) :
  String c s +:+ t = String c (s +:+ t).
Proof. reflexivity. Qed.

Lemma string_app_assoc (s1 s2 s3 : string) :
  (s1 +:+ s2) +:+ s3 = s1 +:+ (s2 +:+ s3).
Proof.
  induction s1 as [|c s1 IH]; [reflexivity|].
  rewrite !string_app_cons. f_equal. exact IH.
Qed.

Lemma string_app_nil_r (s : string) : s +:+ EmptyString = s.
Proof.
  induction s as [|c s IH]; [reflexivity|].
  rewrite string_app_cons. f_equal. exact IH.
Qed.

Lemma insert_by_index_perm (x : Z * (string * JValue)) l :
  insert_by_index x l ≡ₚ x :: l.
Proof.
  induction l as [|y l IH]; simpl; [done|].
  destruct (fst x <? fst y)%Z; [done|].
  rewrite IH. apply Permutation_swap.
Qed.

Lemma foldr_insert_by_index_perm (l : list (Z * (string * JValue))) :
  foldr insert_by_index [] l ≡ₚ l.
Proof.
  induction l as [|x l IH]; simpl; [done|].
  by rewrite insert_by_index_perm, IH.
Qed.

Lemma insert_by_index_sorted (x : Z * (string * JValue)) l :
  Sorted (fun a b => (fst a <= fst b)%Z) l ->
  Sorted (fun a b => (fst a <= fst b)%Z) (insert_by_index x l).
Proof.
  induction 1 as [|y l Hs IH Hh]; simpl; [by repeat constructor|].
  destruct (fst x <? fst y)%Z eqn:E.
  - apply Z.ltb_lt in E. constructor; [by constructor|]. constructor. lia.
  - apply Z.ltb_ge in E. constructor; [done|].
    destruct l as [|z l]; simpl; [constructor; lia|].
    inversion Hh; subst.
    destruct (fst x <? fst z)%Z; constructor; lia.
Qed.

Lemma foldr_insert_by_index_sorted (l : list (Z * (string * JValue))) :
  Sorted (fun a b => (fst a <= fst b)%Z) (foldr insert_by_index [] l).
Proof.
  induction l as [|x l IH]; simpl; [constructor|].
  by apply insert_by_index_sorted.
Qed.

Lemma omap_index_entry_snd (o : JObject) :
  map snd (omap index_entry o) =
  List.filter (fun kv => negb (bool_decide (array_index (fst kv) = None))) o.
Proof.
  induction o as [|kv o IH]; [done|].
  simpl. unfold index_entry at 1. destruct (array_index (fst kv)) eqn:E; simpl.
  - f_equal. exact IH.
  - exact IH.
Qed.

Lemma own_property_order_perm (o : JObject) :
  own_property_order o ≡ₚ o.
Proof.
  unfold own_property_order.
  rewrite foldr_insert_by_index_perm, omap_index_entry_snd.
  induction o as [|kv o IH]; simpl; [done|].
  destruct (bool_decide (array_index (fst kv) = None)); simpl.
  - rewrite <- Permutation_middle. by rewrite IH.
  - by rewrite IH.
Qed.

Lemma own_property_order_no_index (o : JObject) :
  Forall (fun kv => array_index (fst kv) = None) o -> own_property_order o = o.
Proof.
  intros Ho. unfold own_property_order. fold index_entry.
  assert (E1 : omap index_entry o = []).
  { induction Ho as [|kv o Hkv Ho IH]; [done|].
    simpl. unfold index_entry at 1. by rewrite Hkv. }
  rewrite E1. simpl.
  induction Ho as [|kv o Hkv Ho IH]; [done|].
  simpl. rewrite bool_decide_true by done. f_equal.
  apply IH. simpl in E1. unfold index_entry at 1 in E1. rewrite Hkv in E1. done.
Qed.

Lemma join_members_contains (o : JObject) (kv : string * JValue) :
  kv ∈ o -> exists pre post, join_members o = pre +:+ stringify_member kv +:+ post.
Proof.
  induction o as [|kv0 o IH]; intros Hin; [by apply elem_of_nil in Hin|].
  apply elem_of_cons in Hin as [->|Hin].
  - destruct o as [|kv1 o].
    + exists EmptyString, EmptyString. simpl. by rewrite string_app_nil_r.
    + exists EmptyString, ("," +:+ join_members (kv1 :: o)). done.
  - destruct (IH Hin) as (pre & post & Hj).
    destruct o as [|kv1 o]; [by apply elem_of_nil in Hin|].
    exists (stringify_member kv0 +:+ "," +:+ pre), post.
    change (join_members (kv0 :: kv1 :: o))
      with (stringify_member kv0 +:+ "," +:+ join_members (kv1 :: o)).
    rewrite Hj, !string_app_assoc. done.
Qed.

Lemma resolve_member_error new_user_id randomAvatar (users : list User)
    (member : string) (e : Exn) :
  resolve_member new_user_id randomAvatar users member = inl e -> e = NotFound.
Proof.
  unfold resolve_member, findOne.
  destruct (Nat.leb _ 36); [|by destruct (findByAddress _ _)].
  by destruct (find _ users); intros [= <-].
Qed.

Lemma omit_skip (ks : list string) (pre post : JObject) (k : string) (v : JValue) :
  k ∈ ks -> omit ks (app pre ((k, v) :: post)) = omit ks (app pre post).
Proof.
  intros Hk. unfold omit. rewrite !List.filter_app. simpl.
  rewrite bool_decide_true by done. done.
Qed.

(** C2 (counterexample): the token is the signature itself, so replaying
    the same signed body signs Alice in twice under the same token, and
    after the second sign-in the first token still resolves to a session
    of Alice. *)
Lemma signIn_replay_keeps_first_token :
  match signIn Samples.accept_all None Samples.wsdb Samples.users []
          (Samples.sign_in_body "sig1" 1000) with
  | (inr t1, st1) =>
      match signIn Samples.accept_all None Samples.wsdb Samples.users st1
              (Samples.sign_in_body "sig1" 1000) with
      | (inr t2, st2) =>
          user_id (tk_user t2) = user_id (tk_user t1) /\
          tk_token t1 = Some (JStr "sig1") /\
          exists t, recoverToken st2 "sig1" = Some t /\
                    user_id (tk_user t) = user_id (tk_user t1)
      | _ => False
      end
  | _ => False
  end.
Proof. vm_compute. split; [reflexivity|]. split; [reflexivity|]. eexists. split; reflexivity. Qed.

(** C2 (amended): sign-in keeps at most one stored session per user; after
    two successful sign-ins of the same user whose tokens (signatures)
    differ, the only stored session of the user is the second one and the
    first token no longer resolves to a session of the user. *)
Theorem signIn_supersedes_previous_session
    verifySignature TOKEN_EXPIRATION_TIME wsdb users
    (st0 st1 st2 : TokenStore) (b1 b2 : JObject) (t1 t2 : UserToken) :
  at_most_one_session st0 ->
  signIn verifySignature TOKEN_EXPIRATION_TIME wsdb users st0 b1 = (inr t1, st1) ->
  signIn verifySignature TOKEN_EXPIRATION_TIME wsdb users st1 b2 = (inr t2, st2) ->
  user_id (tk_user t2) = user_id (tk_user t1) ->
  tk_token t2 <> tk_token t1 ->
  at_most_one_session st1 /\ at_most_one_session st2 /\
  (forall t, t ∈ st2 -> user_id (tk_user t) = user_id (tk_user t1) -> t = t2) /\
  (forall cred t, tk_token t1 = Some (JStr cred) -> recoverToken st2 cred = Some t ->
     user_id (tk_user t) <> user_id (tk_user t1)).
Proof.
  intros Hinv H1 H2 Hu Htok.
  pose proof (signIn_keeps_single_session _ _ _ _ _ _ _ _ Hinv H1) as Hinv1.
  pose proof (signIn_keeps_single_session _ _ _ _ _ _ _ _ Hinv1 H2) as Hinv2.
  assert (Honly : forall t, t ∈ st2 -> user_id (tk_user t) = user_id (tk_user t1) -> t = t2).
  { apply signIn_outcome in H2 as (st' & -> & _ & Hnot & _).
    intros t Hin Hut.
    apply elem_of_app in Hin as [Hin|Hin%list_elem_of_singleton]; [|done].
    destruct (Hnot t Hin). congruence. }
  split; [done|]. split; [done|]. split; [done|].
  intros cred t Hc Hr Hut.
  unfold recoverToken in Hr. apply find_some in Hr as [Hin Ht].
  apply bool_decide_eq_true in Ht.
  apply list_elem_of_In in Hin.
  rewrite (Honly t Hin Hut) in Ht. congruence.
Qed.

Lemma signIn_supersedes_previous_session_witness :
  exists t1 st1 t2 st2,
    signIn Samples.accept_all None Samples.wsdb Samples.users []
      (Samples.sign_in_body "sig1" 1000) = (inr t1, st1) /\
    signIn Samples.accept_all None Samples.wsdb Samples.users st1
      (Samples.sign_in_body "sig2" 2000) = (inr t2, st2) /\
    (at_most_one_session st1 /\ at_most_one_session st2 /\
     (forall t, t ∈ st2 -> user_id (tk_user t) = user_id (tk_user t1) -> t = t2) /\
     (forall cred t, tk_token t1 = Some (JStr cred) -> recoverToken st2 cred = Some t ->
        user_id (tk_user t) <> user_id (tk_user t1))).
Proof.
  do 4 eexists. split; [reflexivity|]. split; [reflexivity|].
  eapply (signIn_supersedes_previous_session Samples.accept_all None
            Samples.wsdb Samples.users [] _ _ (Samples.sign_in_body "sig1" 1000)
            (Samples.sign_in_body "sig2" 2000)).
  - intros t1 t2 H. by apply elem_of_nil in H.
  - reflexivity.
  - reflexivity.
  - reflexivity.
  - discriminate.
Defined.




(** C6 (counterexample): two sign-in bodies that differ only in
    [workspace_id] have the same signed message, so a signature over one
    verifies the other: [workspace_id] is not part of the message. *)
Lemma signed_message_ignores_workspace_id :
  Samples.sign_in_body_ws "w1" <> Samples.sign_in_body_ws "w2" /\
  JSON_stringify (payloadWithoutSignature (Samples.sign_in_body_ws "w1")) =
  JSON_stringify (payloadWithoutSignature (Samples.sign_in_body_ws "w2")).
Proof. split; [discriminate | reflexivity]. Qed.

(** C6 (amended): the verified message is [JSON.stringify] of the body with
    both [signature] and [workspace_id] removed: adding either field
    anywhere leaves the message unchanged, and every other submitted field
    appears in the message as its serialized key-value pair.  The fields
    are serialized in property order: first those whose key is an array
    index (a canonical decimal numeral below [2 ^ 32 - 1]), in ascending
    order of the index, then the others in submission order; when no key
    is an array index the message lists the fields in submission order. *)
Theorem signed_message_excludes_signature_and_workspace_id :
  (forall (pre post : JObject) (v : JValue),
     JSON_stringify (payloadWithoutSignature (app pre (("workspace_id", v) :: post))) =
     JSON_stringify (payloadWithoutSignature (app pre post))) /\
  (forall (pre post : JObject) (v : JValue),
     JSON_stringify (payloadWithoutSignature (app pre (("signature", v) :: post))) =
     JSON_stringify (payloadWithoutSignature (app pre post))) /\
  (forall (body : JObject) (k : string) (v : JValue),
     (k, v) ∈ body -> k <> "signature" -> k <> "workspace_id" ->
     exists pre post,
       JSON_stringify (payloadWithoutSignature body)
       = pre +:+ stringify_member (k, v) +:+ post) /\
  (forall body : JObject,
     exists idx : list (Z * (string * JValue)),
       JSON_stringify (payloadWithoutSignature body) =
       "{" +:+ join_members
                 (app (map snd idx)
                      (List.filter (fun kv => bool_decide (array_index (fst kv) = None))
                         (omit ["signature"; "workspace_id"] body))) +:+ "}" /\
       map snd idx ≡ₚ
         List.filter (fun kv => negb (bool_decide (array_index (fst kv) = None)))
           (omit ["signature"; "workspace_id"] body) /\
       Forall (fun ikv => array_index (fst (snd ikv)) = Some (fst ikv)) idx /\
       Sorted (fun a b => (fst a <= fst b)%Z) idx) /\
  (forall body : JObject,
     Forall (fun kv => array_index (fst kv) = None) body ->
     JSON_stringify (payloadWithoutSignature body) =
     "{" +:+ join_members (omit ["signature"; "workspace_id"] body) +:+ "}").
Proof.
  unfold payloadWithoutSignature. split; [|split; [|split; [|split]]].
  - intros pre post v. rewrite omit_skip; [done|]. by right; left.
  - intros pre post v. rewrite omit_skip; [done|]. by left.
  - intros body k v Hin Hs Hw.
    assert (Hk : (k, v) ∈ own_property_order (omit ["signature"; "workspace_id"] body)).
    { rewrite own_property_order_perm.
      unfold omit. apply list_elem_of_In, filter_In. split.
      - by apply list_elem_of_In.
      - simpl. rewrite bool_decide_false; [done|].
        rewrite !elem_of_cons, elem_of_nil. tauto. }
    destruct (join_members_contains _ _ Hk) as (pre & post & Hj).
    exists ("{" +:+ pre), (post +:+ "}").
    unfold JSON_stringify. rewrite Hj, !string_app_assoc. reflexivity.
  - intros body.
    set (o := omit ["signature"; "workspace_id"] body).
    exists (foldr insert_by_index [] (omap index_entry o)). split; [reflexivity|].
    split; [|split].
    + by rewrite foldr_insert_by_index_perm, omap_index_entry_snd.
    + apply Forall_forall. intros ikv Hin.
      apply list_elem_of_In in Hin. 
      rewrite <- list_elem_of_In in Hin.
      rewrite foldr_insert_by_index_perm in Hin.
      apply list_elem_of_omap in Hin as (kv & _ & Hkv).
      unfold index_entry in Hkv.
      destruct (array_index (fst kv)) eqn:E; simplify_eq/=. done.
    + apply foldr_insert_by_index_sorted.
  - intros body Hb. unfold JSON_stringify. rewrite own_property_order_no_index; [done|].
    rewrite Forall_forall in Hb |- *. intros kv Hin.
    apply list_elem_of_In in Hin. unfold omit in Hin. apply filter_In in Hin as [Hin _].
    apply Hb, list_elem_of_In, Hin.
Qed.

Lemma signed_message_excludes_signature_and_workspace_id_witness :
  (("user_id", JStr "u1") ∈ Samples.sign_in_body_ws "w1") /\
  (exists pre post,
     JSON_stringify (payloadWithoutSignature (Samples.sign_in_body_ws "w1"))
     = pre +:+ stringify_member ("user_id", JStr "u1") +:+ post) /\
  (JSON_stringify (payloadWithoutSignature (Samples.sign_in_body_ws "w1")) =
   "{" +:+ join_members (omit ["signature"; "workspace_id"] (Samples.sign_in_body_ws "w1"))
   +:+ "}").
Proof.
  assert (Hin : ("user_id", JStr "u1") ∈ Samples.sign_in_body_ws "w1").
  { right. left. }
  split; [exact Hin|]. split.
  - apply (proj1 (proj2 (proj2 signed_message_excludes_signature_and_workspace_id))
             (Samples.sign_in_body_ws "w1") "user_id" (JStr "u1") Hin);
      discriminate.
  - apply (proj2 (proj2 (proj2 (proj2 signed_message_excludes_signature_and_workspace_id)))).
    repeat constructor.
Defined.

(* ------------------------------------------------------------------ *)
(** ** Switching the active workspace *)

Lemma findToken_save (st : TokenStore) (u : option JValue) (token : UserToken) :
  findToken st u = Some token -> findToken (save_token st token) u = Some token.
Proof.
  unfold findToken, save_token. intros H.
  pose proof H as Hf. apply find_some in Hf as [_ Hf].
  induction st as [|r st IH]; simpl in H |- *; [discriminate|].
  destruct (decide (tk_id r = tk_id token)) as [Heq|Hne]; simpl.
  - by rewrite Hf.
  - destruct (bool_decide (Some (JStr (user_id (tk_user r))) = u)) eqn:Hr.
    + injection H as ->. by destruct Hne.
    + by apply IH.
Qed.

(** The run of [updateWorkspace] by a caller that is neither a member of
    the target workspace nor has a permissions entry there. *)
Lemma updateWorkspace_try_outsider (wsdb : list Workspace) (st : TokenStore)
    (workspaceId user : string) (w : Workspace) (token : UserToken) (w0 : Workspace) :
  load_workspace wsdb workspaceId = Some w ->
  Forall (fun m => user_id m <> user) (ws_members w) ->
  ws_permissions w !! user = None ->
  findToken st (Some (JStr user)) = Some token ->
  tk_workspace token = Some w0 ->
  updateWorkspace_try wsdb st workspaceId user =
    (inr (mkSwitchResult (ws_id w0) (ws_name w0) (ws_avatar w0)
            (ws_permissions w0 !! user_id (tk_user token)) (ws_single w0)
            (tk_token token) (user_avatar (tk_user token))
            (user_address (tk_user token))),
     save_token st token).
Proof.
  intros Hl Hm Hp Ht Hw. unfold updateWorkspace_try. rewrite Hl, Ht.
  assert (Hmem : existsb (fun m => bool_decide (user_id m = user)) (ws_members w) = false).
  { apply not_true_iff_false. intros Hb. apply existsb_exists in Hb as (x & Hx & Hb).
    apply bool_decide_eq_true in Hb. rewrite Forall_forall in Hm.
    apply (Hm x); [by apply list_elem_of_In | done]. }
  rewrite Hmem, Hp. simpl. rewrite Hw. reflexivity.
Qed.

(** C3 (counterexample): Bob, signed in with his personal workspace
    active, switches to [w_shared], where he is neither a member nor has a
    permissions entry; the operation returns a success response, which
    reports his previous workspace. *)
Lemma switch_by_outsider_not_rejected :
  exists r, fst (updateWorkspace Samples.wsdb [Samples.bob_token] "w3" "u2")
            = successful r /\ r_workspace_id r = "w2".
Proof. eexists. split; reflexivity. Qed.

(** C3 (amended): a switch by a caller who is neither a member of the
    target workspace nor has a permissions entry there is not rejected:
    when the caller has a stored session with an active workspace, the
    operation returns a success response that reports that workspace. *)
Theorem switch_by_outsider_succeeds (wsdb : list Workspace) (st : TokenStore)
    (workspaceId user : string) (w : Workspace) (token : UserToken) (w0 : Workspace) :
  load_workspace wsdb workspaceId = Some w ->
  Forall (fun m => user_id m <> user) (ws_members w) ->
  ws_permissions w !! user = None ->
  findToken st (Some (JStr user)) = Some token ->
  tk_workspace token = Some w0 ->
  exists r, fst (updateWorkspace wsdb st workspaceId user) = successful r /\
            r_workspace_id r = ws_id w0.
Proof.
  intros Hl Hm Hp Ht Hw. unfold updateWorkspace.
  rewrite (updateWorkspace_try_outsider wsdb st workspaceId user w token w0 Hl Hm Hp Ht Hw).
  eexists. split; reflexivity.
Qed.

Lemma switch_by_outsider_succeeds_witness :
  exists r, fst (updateWorkspace Samples.wsdb [Samples.bob_token] "w3" "u2")
            = successful r /\ r_workspace_id r = ws_id Samples.w_bob.
Proof.
  apply (switch_by_outsider_succeeds Samples.wsdb [Samples.bob_token] "w3" "u2"
           Samples.w_shared Samples.bob_token Samples.w_bob).
  - reflexivity.
  - repeat constructor. discriminate.
  - reflexivity.
  - reflexivity.
  - reflexivity.
Defined.

(** C4: for such a caller with a stored session whose workspace is [w0],
    the [try] block completes without an exception, the caller's session
    is stored unchanged (its workspace is still [w0]), and the response
    reports [w0]. *)
Theorem switch_by_outsider_keeps_session (wsdb : list Workspace) (st : TokenStore)
    (workspaceId user : string) (w : Workspace) (token : UserToken) (w0 : Workspace) :
  load_workspace wsdb workspaceId = Some w ->
  Forall (fun m => user_id m <> user) (ws_members w) ->
  ws_permissions w !! user = None ->
  findToken st (Some (JStr user)) = Some token ->
  tk_workspace token = Some w0 ->
  exists r st',
    updateWorkspace_try wsdb st workspaceId user = (inr r, st') /\
    findToken st' (Some (JStr user)) = Some token /\
    r_workspace_id r = ws_id w0 /\ r_workspace_name r = ws_name w0.
Proof.
  intros Hl Hm Hp Ht Hw.
  rewrite (updateWorkspace_try_outsider wsdb st workspaceId user w token w0 Hl Hm Hp Ht Hw).
  do 2 eexists. split; [reflexivity|]. split; [|done].
  by apply findToken_save.
Qed.

Lemma switch_by_outsider_keeps_session_witness :
  exists r st',
    updateWorkspace_try Samples.wsdb [Samples.bob_token] "w3" "u2" = (inr r, st') /\
    findToken st' (Some (JStr "u2")) = Some Samples.bob_token /\
    r_workspace_id r = ws_id Samples.w_bob /\ r_workspace_name r = ws_name Samples.w_bob.
Proof.
  apply (switch_by_outsider_keeps_session Samples.wsdb [Samples.bob_token] "w3" "u2"
           Samples.w_shared Samples.bob_token Samples.w_bob).
  - reflexivity.
  - repeat constructor. discriminate.
  - reflexivity.
  - reflexivity.
  - reflexivity.
Defined.

(** C10: once the target workspace is found, a caller without a stored
    token makes [updateWorkspace] dereference the absent token: the [try]
    block throws a [TypeError], the token table is unchanged and the
    response carries no typed error.  When a token is found, the
    null-token failure cannot occur. *)
Theorem switch_without_token_null_dereference (wsdb : list Workspace) (st : TokenStore)
    (workspaceId user : string) (w : Workspace) :
  load_workspace wsdb workspaceId = Some w ->
  (findToken st (Some (JStr user)) = None ->
     (exists msg, updateWorkspace_try wsdb st workspaceId user = (inl (TypeError msg), st)) /\
     updateWorkspace wsdb st workspaceId user = (error_response None, st)) /\
  (forall token, findToken st (Some (JStr user)) = Some token ->
     forall b, fst (updateWorkspace_try wsdb st workspaceId user) <> inl (null_token_error b)).
Proof.
  intros Hl. unfold updateWorkspace, updateWorkspace_try. rewrite Hl. split.
  - intros Ht. rewrite Ht. split.
    + unfold null_token_error. destruct (_ || _); eexists; reflexivity.
    + unfold null_token_error. destruct (_ || _); reflexivity.
  - intros token Ht b. rewrite Ht.
    destruct (_ || _); simpl;
      [destruct (tk_workspace (set_workspace token w))|destruct (tk_workspace token)];
      simpl; try discriminate;
      destruct b; unfold null_token_error; simpl; intros H; inversion H.
Qed.

Lemma switch_without_token_null_dereference_witness :
  load_workspace Samples.wsdb "w3" = Some Samples.w_shared /\
  updateWorkspace Samples.wsdb [] "w3" "u2" = (error_response None, []).
Proof.
  split; [reflexivity|].
  apply (proj2 (proj1 (switch_without_token_null_dereference Samples.wsdb [] "w3" "u2"
                         Samples.w_shared eq_refl) eq_refl)).
Defined.

(* ------------------------------------------------------------------ *)
(** ** Further helper lemmas *)

Lemma find_ext {A} (f g : A -> bool) (l : list A) :
  (forall x, f x = g x) -> find f l = find g l.
Proof. intros Hfg. induction l as [|x l IH]; simpl; [done|]. by rewrite Hfg, IH. Qed.

Lemma load_workspace_save_other (wsdb : list Workspace) (w' : Workspace) (id : string) :
  ws_id w' <> id -> load_workspace (save_workspace wsdb w') id = load_workspace wsdb id.
Proof.
  unfold load_workspace, first_workspace, save_workspace. intros Hne.
  induction wsdb as [|r rest IH]; simpl; [done|].
  destruct (decide (ws_id r = ws_id w')) as [Heq|Heq]; simpl.
  - rewrite !bool_decide_false by congruence. exact IH.
  - destruct (bool_decide (ws_id r = id)); [done|]. exact IH.
Qed.

Lemma findToken_user (st : TokenStore) (user : string) (token : UserToken) :
  findToken st (Some (JStr user)) = Some token ->
  user_id (tk_user token) = user /\ token ∈ st.
Proof.
  unfold findToken. intros H. apply find_some in H as [Hin H].
  apply bool_decide_eq_true in H. split; [congruence|]. by apply list_elem_of_In.
Qed.

Lemma findToken_save_same (st : TokenStore) (u : option JValue) (t t' : UserToken) :
  findToken st u = Some t -> tk_id t' = tk_id t -> tk_user t' = tk_user t ->
  findToken (save_token st t') u = Some t'.
Proof.
  unfold findToken, save_token. intros H Hid Hu.
  pose proof H as Hf. apply find_some in Hf as [_ Hf].
  induction st as [|r st IH]; simpl in H |- *; [discriminate|].
  destruct (decide (tk_id r = tk_id t')) as [Heq|Hne]; simpl.
  - by rewrite Hu, Hf.
  - destruct (bool_decide (Some (JStr (user_id (tk_user r))) = u)) eqn:Hr.
    + injection H as ->. congruence.
    + by apply IH.
Qed.

Lemma elem_of_save_token (st : TokenStore) (t' x : UserToken) :
  x ∈ save_token st t' -> x = t' \/ (x ∈ st /\ tk_id x <> tk_id t').
Proof.
  unfold save_token. rewrite list_elem_of_In, in_map_iff.
  intros (r & Hr & Hin). destruct (decide (tk_id r = tk_id t')) as [Heq|Hne]; [by left|].
  right. subst. split; [by apply list_elem_of_In|done].
Qed.

Lemma save_token_single_session (st : TokenStore) (t t' : UserToken) :
  at_most_one_session st -> t ∈ st -> tk_id t' = tk_id t -> tk_user t' = tk_user t ->
  at_most_one_session (save_token st t').
Proof.
  intros Hinv Ht Hid Hu t1 t2 H1 H2 Heq.
  apply elem_of_save_token in H1 as [->|[H1 Hn1]];
  apply elem_of_save_token in H2 as [->|[H2 Hn2]]; [done| | |by apply Hinv].
  - destruct Hn2. rewrite Hid. f_equal. symmetry. apply Hinv; [done|done|congruence].
  - destruct Hn1. rewrite Hid. f_equal. apply Hinv; [done|done|congruence].
Qed.

(** The run of [updateWorkspace] by a member of the target workspace or a
    holder of a permissions entry there. *)
Lemma updateWorkspace_try_insider (wsdb : list Workspace) (st : TokenStore)
    (workspaceId user : string) (w : Workspace) (token : UserToken) :
  load_workspace wsdb workspaceId = Some w ->
  (exists m, m ∈ ws_members w /\ user_id m = user) \/ is_Some (ws_permissions w !! user) ->
  findToken st (Some (JStr user)) = Some token ->
  updateWorkspace_try wsdb st workspaceId user =
    (inr (mkSwitchResult workspaceId (ws_name w) (ws_avatar w) (ws_permissions w !! user)
            (ws_single w) (tk_token token) (user_avatar (tk_user token))
            (user_address (tk_user token))),
     save_token st (set_workspace token w)).
Proof.
  intros Hl Hin Ht. pose proof (load_workspace_id _ _ _ Hl) as Hid.
  destruct (findToken_user _ _ _ Ht) as [Hu _].
  unfold updateWorkspace_try. rewrite Hl, Ht.
  assert (Hb : existsb (fun m => bool_decide (user_id m = user)) (ws_members w)
               || bool_decide (is_Some (ws_permissions w !! user)) = true).
  { apply orb_true_iff. destruct Hin as [(m & Hm & Hmu)|Hp].
    - left. apply existsb_exists. exists m.
      split; [by apply list_elem_of_In|]. by apply bool_decide_eq_true.
    - right. by apply bool_decide_eq_true. }
  rewrite Hb. simpl. rewrite Hid, Hu. reflexivity.
Qed.

Lemma when_set_unset (v : option string)
    (k : string -> list PredicateCond -> list PredicateCond) (conds : list PredicateCond) :
  truthy_str v = false -> when_set v k conds = conds.
Proof. destruct v as [s|]; simpl; [intros ->|]; done. Qed.

Lemma when_set_where (s : string) (c : string -> PredicateCond) (conds : list PredicateCond) :
  s <> EmptyString -> when_set (Some s) (fun s0 => qb_where (c s0)) conds = [c s].
Proof. intros Hs. unfold when_set. by rewrite bool_decide_true. Qed.

Lemma foldl_add_asset (parseUnits : string -> option Z) (amount : Asset -> Z)
    (assets : list Asset) (x : Z) :
  Forall (fun a => parseUnits (asset_amount a) = Some (amount a)) assets ->
  foldl (add_asset parseUnits) (Some x) assets
  = Some (x + foldr Z.add 0 (map amount assets))%Z.
Proof.
  intros Hall. revert x. induction Hall as [|a assets Ha Hall IH]; intros x; cbn [foldl foldr map].
  - f_equal; lia.
  - replace (add_asset parseUnits (Some x) a) with (Some (x + amount a)%Z)
      by (unfold add_asset; simpl; by rewrite Ha).
    rewrite IH. f_equal. lia.
Qed.

Lemma foldl_option_none {B} (f : option Z -> B -> option Z) (l : list B) (b0 : B)
    (acc : option Z) :
  (forall b, f None b = None) -> (forall acc, f acc b0 = None) -> b0 ∈ l ->
  foldl f acc l = None.
Proof.
  intros Hnone Hb0 Hin.
  assert (Habs : forall l', foldl f None l' = None).
  { intros l'. induction l' as [|b l' IH]; simpl; [done|]. by rewrite Hnone. }
  revert acc. induction l as [|b l IH]; intros acc; [by apply elem_of_nil in Hin|].
  simpl. apply elem_of_cons in Hin as [->|Hin].
  - rewrite Hb0. apply Habs.
  - by apply IH.
Qed.

(* ------------------------------------------------------------------ *)
(** ** Request authentication *)

(** X1: [authMiddleware] rejects a request whose [authorization] header or
    [signerAddress] header is absent or empty with [MISSING_CREDENTIALS],
    before any token helper runs; the token table is untouched. *)
Theorem authMiddleware_missing_credentials recoverToken_ renewToken checkUserExists
    findLoggedWorkspace (st : TokenStore) (authorization signerAddress : option string) :
  truthy_str authorization = false \/ truthy_str signerAddress = false ->
  authMiddleware recoverToken_ renewToken checkUserExists findLoggedWorkspace st
    authorization signerAddress = (inl (Unauthorized MISSING_CREDENTIALS), st).
Proof.
  intros H. unfold authMiddleware.
  destruct authorization as [a|], signerAddress as [s|]; try reflexivity.
  destruct H as [H|H]; rewrite H; [reflexivity|]. by rewrite andb_false_r.
Qed.

Lemma authMiddleware_missing_credentials_witness :
  truthy_str (Some EmptyString) = false /\
  authMiddleware Samples.sample_recover Samples.sample_renew Samples.sample_checkUser
    Samples.sample_logged [Samples.bob_token] (Some EmptyString) (Some "0xb2")
  = (inl (Unauthorized MISSING_CREDENTIALS), [Samples.bob_token]).
Proof.
  split; [reflexivity|].
  apply (authMiddleware_missing_credentials Samples.sample_recover Samples.sample_renew
           Samples.sample_checkUser Samples.sample_logged [Samples.bob_token]
           (Some EmptyString) (Some "0xb2")).
  left. reflexivity.
Defined.

(** X2: with both headers present, the request's user is the one
    [checkUserExists] finds for [signerAddress] and its token is the one
    [recoverToken] finds for [authorization]; the two are never compared,
    so the token may belong to another user. *)
Theorem authMiddleware_user_not_bound_to_token recoverToken_ renewToken checkUserExists
    findLoggedWorkspace (st st1 : TokenStore) (authorization signerAddress : string)
    (token : UserToken) (u : User) (w : option Workspace) :
  authorization <> EmptyString -> signerAddress <> EmptyString ->
  recoverToken_ st authorization = inr token ->
  renewToken st token = inr st1 ->
  checkUserExists signerAddress = inr u ->
  findLoggedWorkspace token = inr w ->
  authMiddleware recoverToken_ renewToken checkUserExists findLoggedWorkspace st
    (Some authorization) (Some signerAddress) = (inr (mkAuthContext u token w), st1).
Proof.
  intros Ha Hs Hr Hn Hc Hf. unfold authMiddleware. simpl.
  rewrite !bool_decide_true by done. simpl. by rewrite Hr, Hn, Hc, Hf.
Qed.

Lemma authMiddleware_user_not_bound_to_token_witness :
  user_id Samples.alice <> user_id (tk_user Samples.bob_token) /\
  authMiddleware Samples.sample_recover Samples.sample_renew Samples.sample_checkUser
    Samples.sample_logged [Samples.bob_token] (Some "sig-b") (Some "0xa1")
  = (inr (mkAuthContext Samples.alice Samples.bob_token (Some Samples.w_bob)),
     [Samples.bob_token]).
Proof.
  split; [discriminate|].
  apply (authMiddleware_user_not_bound_to_token Samples.sample_recover Samples.sample_renew
           Samples.sample_checkUser Samples.sample_logged [Samples.bob_token]
           [Samples.bob_token] "sig-b" "0xa1" Samples.bob_token Samples.alice
           (Some Samples.w_bob)); try discriminate; reflexivity.
Defined.

(* ------------------------------------------------------------------ *)
(** ** Sign-in: the session's workspace, revocation and expiry *)

(** X3: a sign-in whose body carries a non-empty [workspace_id] binds the
    new session to the first workspace with that id, whoever its owner and
    members are; an unknown id gives a session without a workspace. *)
Theorem signIn_workspace_from_workspace_id verifySignature TOKEN_EXPIRATION_TIME
    wsdb users st (body : JObject) (wid : string) (tk : UserToken) (st' : TokenStore) :
  get body "workspace_id" = Some (JStr wid) -> wid <> EmptyString ->
  signIn verifySignature TOKEN_EXPIRATION_TIME wsdb users st body = (inr tk, st') ->
  tk_workspace tk = load_workspace wsdb wid.
Proof.
  intros Hw Hne. unfold signIn. cbv zeta. rewrite Hw.
  destruct (verifySignature _ _ _); simpl; [|intros H; discriminate H].
  destruct (findOne _ _) as [e|user]; [intros H; discriminate H|].
  intros H; injection H as <- _. simpl.
  rewrite bool_decide_true by done.
  unfold load_workspace, first_workspace. apply find_ext. intros w.
  apply bool_decide_ext. split; [congruence|intros ->; done].
Qed.

Lemma signIn_workspace_from_workspace_id_witness :
  exists tk st',
    signIn Samples.accept_all None Samples.wsdb Samples.users []
      (Samples.sign_in_body_ws "w2") = (inr tk, st') /\
    tk_user tk = Samples.alice /\ tk_workspace tk = Some Samples.w_bob.
Proof.
  do 2 eexists. split; [reflexivity|]. split; [reflexivity|].
  exact (signIn_workspace_from_workspace_id Samples.accept_all None Samples.wsdb
           Samples.users [] (Samples.sign_in_body_ws "w2") "w2" _ _
           eq_refl ltac:(discriminate) eq_refl).
Defined.

(** X4: a sign-in without a [workspace_id] (absent or empty) binds the
    new session to the first workspace owned by the signing user that is
    marked single, or to none when there is no such workspace. *)
Theorem signIn_default_single_workspace verifySignature TOKEN_EXPIRATION_TIME
    wsdb users st (body : JObject) (tk : UserToken) (st' : TokenStore) :
  truthy (get body "workspace_id") = false ->
  signIn verifySignature TOKEN_EXPIRATION_TIME wsdb users st body = (inr tk, st') ->
  tk_workspace tk
  = find (fun w => bool_decide (user_id (ws_owner w) = user_id (tk_user tk)) && ws_single w)
      wsdb.
Proof.
  intros Hw. unfold signIn. cbv zeta. rewrite Hw.
  destruct (verifySignature _ _ _); simpl; [|intros H; discriminate H].
  destruct (findOne users (get body "user_id")) as [e|user] eqn:Hu;
    [intros H; discriminate H|].
  unfold findOne in Hu. destruct (find _ users) as [u'|] eqn:Hf; [|discriminate].
  injection Hu as <-. apply find_some in Hf as [_ Hf]. apply bool_decide_eq_true in Hf.
  intros H; injection H as <- _. simpl.
  unfold first_workspace. apply find_ext. intros w. f_equal.
  apply bool_decide_ext. rewrite <- Hf. split; [congruence|intros ->; done].
Qed.

Lemma signIn_default_single_workspace_witness :
  exists tk st',
    signIn Samples.accept_all None Samples.wsdb Samples.users []
      (Samples.sign_in_body "sig1" 1000) = (inr tk, st') /\
    tk_workspace tk = Some Samples.w_alice.
Proof.
  do 2 eexists. split; [reflexivity|].
  exact (signIn_default_single_workspace Samples.accept_all None Samples.wsdb
           Samples.users [] (Samples.sign_in_body "sig1" 1000) _ _ eq_refl eq_refl).
Defined.

(** X5: once the signature verifies, an existing session of the body's
    [user_id] is signed out before the user is looked up: when the lookup
    then fails, the request fails with that error and the user's sessions
    are gone all the same. *)
Theorem signIn_unknown_user_still_signs_out verifySignature TOKEN_EXPIRATION_TIME
    wsdb users st (body : JObject) (t0 : UserToken) (e : Exn) :
  verifySignature (get body "signature") (JSON_stringify (payloadWithoutSignature body))
    (get body "address") = true ->
  findToken st (get body "user_id") = Some t0 ->
  findOne users (get body "user_id") = inl e ->
  signIn verifySignature TOKEN_EXPIRATION_TIME wsdb users st body
  = (inl e, signOut st (tk_user t0)) /\
  (forall t, t ∈ signOut st (tk_user t0) -> user_id (tk_user t) <> user_id (tk_user t0)).
Proof.
  intros Hv Ht Hu. split.
  - unfold signIn. cbv zeta. rewrite Hv, Ht, Hu. reflexivity.
  - intros t. unfold signOut. rewrite list_elem_of_In, filter_In. intros [_ H].
    by apply negb_true_iff, bool_decide_eq_false in H.
Qed.

Lemma signIn_unknown_user_still_signs_out_witness :
  signIn Samples.accept_all None Samples.wsdb [Samples.bob] [Samples.alice_token]
    (Samples.sign_in_body "sig1" 1000) = (inl NotFound, []).
Proof.
  exact (proj1 (signIn_unknown_user_still_signs_out Samples.accept_all None Samples.wsdb
                  [Samples.bob] [Samples.alice_token] (Samples.sign_in_body "sig1" 1000)
                  Samples.alice_token NotFound eq_refl eq_refl eq_refl)).
Defined.

(** X6: [TOKEN_EXPIRATION_TIME] is read with [?? '15'], so a blank value
    (empty, or only JavaScript white space) is kept and [Number] makes it
    0: the session expires at [toDate(createdAt)].  A value that [Number]
    turns into [NaN] or an infinity makes the expiry an Invalid Date. *)
Theorem signIn_blank_or_invalid_expiration_time verifySignature (s : string)
    wsdb users st (body : JObject) (tk : UserToken) (st' : TokenStore) :
  signIn verifySignature (Some s) wsdb users st body = (inr tk, st') ->
  (trim (utf8_bytes s) = [] -> tk_expired_at tk = toDate (get body "createdAt")) /\
  ((js_Number s = NaN \/ exists b, js_Number s = Infinity b) -> tk_expired_at tk = None).
Proof.
  intros H. apply signIn_outcome in H as (_ & _ & _ & _ & _ & _ & Hexp).
  rewrite Hexp. change (default "15" (Some s)) with s. split.
  - intros Ht. assert (Hs : js_Number s = Finite 0 0) by (unfold js_Number; by rewrite Ht).
    apply option_eq. intros x. rewrite addMinutes_Some, toDate_Some. split.
    + intros (T & n & Hc & Hn & HT & -> & _). rewrite Hs in Hn.
      injection Hn as <-. exists T. split; [done|]. split; [done|]. cbn. lia.
    + intros (T & Hc & HT & ->). exists T, 0%Z. rewrite Hs.
      split; [done|]. split; [reflexivity|]. split; [done|]. split; lia.
  - intros Hs. destruct (addMinutes _ _) as [x|] eqn:Ha; [|done].
    apply addMinutes_Some in Ha as (T & n & _ & Hn & _).
    change (default "15" (Some s)) with s in Hn. destruct Hs as [Hs|(b & Hs)]; rewrite Hs in Hn; discriminate.
Qed.

Lemma signIn_blank_or_invalid_expiration_time_witness :
  (exists tk st',
     signIn Samples.accept_all (Some " ") Samples.wsdb Samples.users []
       (Samples.sign_in_body "sig1" 1000) = (inr tk, st') /\
     tk_expired_at tk = toDate (Some (JNum 1000))) /\
  (exists tk st',
     signIn Samples.accept_all (Some "abc") Samples.wsdb Samples.users []
       (Samples.sign_in_body "sig1" 1000) = (inr tk, st') /\
     tk_expired_at tk = None).
Proof.
  split; do 2 eexists; split; [reflexivity| |reflexivity|].
  - exact (proj1 (signIn_blank_or_invalid_expiration_time Samples.accept_all " "
                    Samples.wsdb Samples.users [] (Samples.sign_in_body "sig1" 1000) _ _
                    eq_refl) eq_refl).
  - exact (proj2 (signIn_blank_or_invalid_expiration_time Samples.accept_all "abc"
                    Samples.wsdb Samples.users [] (Samples.sign_in_body "sig1" 1000) _ _
                    eq_refl) (or_introl eq_refl)).
Defined.

(* ------------------------------------------------------------------ *)
(** ** Workspace endpoints: unknown ids, switching, permissions, members *)

(** X7: for an id that names no workspace, [updateWorkspace] answers
    [NotFound], while [updatePermissions] and [removeMember] fail on
    [undefined] (their [if (!data)] guard never fires) and answer an error
    without a typed payload.  [addMember] first resolves its [member]:
    an unknown user id answers [NotFound]; otherwise it then fails on
    [undefined] like the others, after inserting the user when [member]
    is an address no user has.  The workspace and token tables never
    change. *)
Theorem unknown_workspace_id_errors (defaultPermissions : PermissionRoles -> IPermissions)
    (new_user_id : list User -> string) (randomAvatar : string)
    (wsdb : list Workspace) (users : list User) (st : TokenStore)
    (id user member : string) (permissions : IPermissions) :
  load_workspace wsdb id = None ->
  updateWorkspace wsdb st id user = (error_response (Some NotFound), st) /\
  updatePermissions wsdb id member permissions = (error_response None, wsdb) /\
  removeMember wsdb id member = (error_response None, wsdb) /\
  (forall e, resolve_member new_user_id randomAvatar users member = inl e ->
     addMember_request defaultPermissions new_user_id randomAvatar wsdb users id member
     = (error_response (Some NotFound), (wsdb, users))) /\
  (forall u users', resolve_member new_user_id randomAvatar users member = inr (u, users') ->
     addMember_request defaultPermissions new_user_id randomAvatar wsdb users id member
     = (error_response None, (wsdb, users'))).
Proof.
  intros Hl. split; [|split; [|split; [|split]]].
  - unfold updateWorkspace, updateWorkspace_try. by rewrite Hl.
  - unfold updatePermissions, updatePermissions_try. by rewrite Hl.
  - unfold removeMember, removeMember_try. by rewrite Hl.
  - intros e He. unfold addMember_request. rewrite He.
    by rewrite (resolve_member_error _ _ _ _ _ He).
  - intros u users' Hu. unfold addMember_request. rewrite Hu.
    unfold addMember, addMember_try. by rewrite Hl.
Qed.

Lemma unknown_workspace_id_errors_witness :
  load_workspace Samples.wsdb "w9" = None /\
  removeMember Samples.wsdb "w9" "u2" = (error_response None, Samples.wsdb) /\
  addMember_request Samples.defaults Samples.new_user_id Samples.randomAvatar
    Samples.wsdb Samples.users "w9" "u9"
  = (error_response (Some NotFound), (Samples.wsdb, Samples.users)) /\
  addMember_request Samples.defaults Samples.new_user_id Samples.randomAvatar
    Samples.wsdb Samples.users "w9" Samples.new_address
  = (error_response None,
     (Samples.wsdb,
      app Samples.users [mkUser "u-new" Samples.new_address "avatar-new"])).
Proof.
  split; [reflexivity|]. split; [|split].
  - exact (proj1 (proj2 (proj2 (unknown_workspace_id_errors Samples.defaults
             Samples.new_user_id Samples.randomAvatar Samples.wsdb Samples.users []
             "w9" "u2" "u2" ∅ eq_refl)))).
  - exact (proj1 (proj2 (proj2 (proj2 (unknown_workspace_id_errors Samples.defaults
             Samples.new_user_id Samples.randomAvatar Samples.wsdb Samples.users []
             "w9" "u9" "u9" ∅ eq_refl)))) NotFound eq_refl).
  - exact (proj2 (proj2 (proj2 (proj2 (unknown_workspace_id_errors Samples.defaults
             Samples.new_user_id Samples.randomAvatar Samples.wsdb Samples.users []
             "w9" "u9" Samples.new_address ∅ eq_refl))))
             (mkUser "u-new" Samples.new_address "avatar-new")
             (app Samples.users [mkUser "u-new" Samples.new_address "avatar-new"]) eq_refl).
Defined.

(** X8: a switch by a member of the target workspace, or by a holder of a
    permissions entry there, who has a stored session, succeeds: the
    session is saved with the target as its workspace and the response
    reports the target and the caller's permissions entry in it. *)
Theorem switch_by_member_moves_session (wsdb : list Workspace) (st : TokenStore)
    (workspaceId user : string) (w : Workspace) (token : UserToken) :
  load_workspace wsdb workspaceId = Some w ->
  (exists m, m ∈ ws_members w /\ user_id m = user) \/ is_Some (ws_permissions w !! user) ->
  findToken st (Some (JStr user)) = Some token ->
  exists r,
    updateWorkspace wsdb st workspaceId user
    = (successful r, save_token st (set_workspace token w)) /\
    r_workspace_id r = workspaceId /\
    r_workspace_permissions r = ws_permissions w !! user /\
    r_token r = tk_token token /\
    findToken (save_token st (set_workspace token w)) (Some (JStr user))
    = Some (set_workspace token w).
Proof.
  intros Hl Hin Ht. unfold updateWorkspace.
  rewrite (updateWorkspace_try_insider _ _ _ _ _ _ Hl Hin Ht).
  eexists. split; [reflexivity|]. do 3 (split; [reflexivity|]).
  by apply (findToken_save_same _ _ token).
Qed.

Lemma switch_by_member_moves_session_witness :
  exists r,
    updateWorkspace Samples.wsdb [Samples.alice_token] "w3" "u1"
    = (successful r, save_token [Samples.alice_token]
                       (set_workspace Samples.alice_token Samples.w_shared)) /\
    r_workspace_id r = "w3" /\
    r_workspace_permissions r = ws_permissions Samples.w_shared !! "u1" /\
    r_token r = tk_token Samples.alice_token /\
    findToken (save_token [Samples.alice_token]
                 (set_workspace Samples.alice_token Samples.w_shared)) (Some (JStr "u1"))
    = Some (set_workspace Samples.alice_token Samples.w_shared).
Proof.
  apply (switch_by_member_moves_session Samples.wsdb [Samples.alice_token] "w3" "u1"
           Samples.w_shared Samples.alice_token).
  - reflexivity.
  - left. exists Samples.alice. split; [left|reflexivity].
  - reflexivity.
Defined.

(** X9: [updateWorkspace] keeps the single-session invariant: if no two
    stored sessions belong to the same user before the call, none do after
    it, whatever its outcome. *)
Theorem updateWorkspace_keeps_single_session (wsdb : list Workspace) (st : TokenStore)
    (workspaceId user : string) (r : Exn + SwitchResult) (st' : TokenStore) :
  at_most_one_session st ->
  updateWorkspace_try wsdb st workspaceId user = (r, st') ->
  at_most_one_session st'.
Proof.
  intros Hinv. unfold updateWorkspace_try. cbv zeta.
  destruct (load_workspace wsdb workspaceId) as [w|]; [|intros H; by injection H as _ <-].
  destruct (findToken st (Some (JStr user))) as [token|] eqn:Ht;
    [|intros H; by injection H as _ <-].
  destruct (findToken_user _ _ _ Ht) as [_ Hin].
  destruct (existsb _ _ || bool_decide _);
    [simpl|destruct (tk_workspace token)]; intros H; injection H as _ <-;
    by apply (save_token_single_session _ token).
Qed.

Lemma updateWorkspace_keeps_single_session_witness :
  exists r st',
    updateWorkspace_try Samples.wsdb [Samples.alice_token; Samples.bob_token] "w3" "u1"
    = (r, st') /\
    option_map ws_id (head st' ≫= tk_workspace) = Some "w3" /\
    at_most_one_session st'.
Proof.
  do 2 eexists. split; [reflexivity|]. split; [reflexivity|].
  eapply (updateWorkspace_keeps_single_session Samples.wsdb
            [Samples.alice_token; Samples.bob_token] "w3" "u1").
  - intros t1 t2 H1 H2 Hu.
    apply elem_of_cons in H1 as [->|H1%list_elem_of_singleton];
      apply elem_of_cons in H2 as [->|H2%list_elem_of_singleton]; subst;
      solve [reflexivity | discriminate Hu].
  - reflexivity.
Defined.

(** X10: [updatePermissions] does not require the target to be a member:
    granting permissions in a workspace to a non-owner who is not a member
    makes that user's next switch to the workspace succeed, with the
    granted permissions reported, while the members stay unchanged. *)
Theorem permission_grant_enables_switch (wsdb : list Workspace) (st : TokenStore)
    (id m : string) (perms : IPermissions) (w : Workspace) (token : UserToken)
    (r1 : Response Workspace) (db1 : list Workspace) :
  load_workspace wsdb id = Some w ->
  user_id (ws_owner w) <> m ->
  findToken st (Some (JStr m)) = Some token ->
  updatePermissions wsdb id m perms = (r1, db1) ->
  exists w1 r2,
    r1 = successful w1 /\ ws_members w1 = ws_members w /\
    updateWorkspace db1 st id m = (successful r2, save_token st (set_workspace token w1)) /\
    r_workspace_id r2 = id /\ r_workspace_permissions r2 = Some perms.
Proof.
  intros Hl Hown Ht Hup. unfold updatePermissions, updatePermissions_try in Hup.
  rewrite Hl in Hup. rewrite decide_False in Hup by done.
  injection Hup as <- <-. set (w1 := with_permissions _ _).
  assert (Hl1 : load_workspace (save_workspace wsdb w1) id = Some w1).
  { apply (load_workspace_save _ _ w); [done|]. by apply load_workspace_id in Hl. }
  assert (Hp : ws_permissions w1 !! m = Some perms).
  { simpl. apply lookup_insert_eq. }
  exists w1. eexists. split; [done|]. split; [done|].
  unfold updateWorkspace.
  rewrite (updateWorkspace_try_insider _ _ _ _ w1 token Hl1); [| right; by rewrite Hp | done].
  split; [reflexivity|]. split; [reflexivity|]. exact Hp.
Qed.

Lemma permission_grant_enables_switch_witness :
  exists r1 db1,
    updatePermissions Samples.wsdb "w3" "u2" Samples.viewer_permissions = (r1, db1) /\
    exists w1 r2,
      r1 = successful w1 /\ ws_members w1 = ws_members Samples.w_shared /\
      updateWorkspace db1 [Samples.bob_token] "w3" "u2"
      = (successful r2, save_token [Samples.bob_token] (set_workspace Samples.bob_token w1)) /\
      r_workspace_id r2 = "w3" /\
      r_workspace_permissions r2 = Some Samples.viewer_permissions.
Proof.
  do 2 eexists. split; [reflexivity|].
  apply (permission_grant_enables_switch Samples.wsdb [Samples.bob_token] "w3" "u2"
           Samples.viewer_permissions Samples.w_shared Samples.bob_token);
    [reflexivity | discriminate | reflexivity | reflexivity].
Defined.

(** X11: [updatePermissions] for a target other than the owner replaces
    the target's permissions entry and nothing else: the other entries,
    the members, the owner and every other workspace are unchanged. *)
Theorem updatePermissions_sets_only_target_entry (wsdb : list Workspace) (id m : string)
    (perms : IPermissions) (w : Workspace) :
  load_workspace wsdb id = Some w ->
  user_id (ws_owner w) <> m ->
  exists w',
    updatePermissions wsdb id m perms = (successful w', save_workspace wsdb w') /\
    load_workspace (save_workspace wsdb w') id = Some w' /\
    ws_permissions w' !! m = Some perms /\
    (forall k, k <> m -> ws_permissions w' !! k = ws_permissions w !! k) /\
    ws_members w' = ws_members w /\ ws_owner w' = ws_owner w /\
    (forall id', id' <> id ->
       load_workspace (save_workspace wsdb w') id' = load_workspace wsdb id').
Proof.
  intros Hl Hown. pose proof (load_workspace_id _ _ _ Hl) as Hid.
  unfold updatePermissions, updatePermissions_try. rewrite Hl, decide_False by done.
  eexists. split; [reflexivity|]. split.
  { apply (load_workspace_save _ _ w); [done|]. exact Hid. }
  simpl. split; [apply lookup_insert_eq|]. split.
  { intros k Hk. rewrite lookup_insert_ne; [done|congruence]. }
  split; [done|]. split; [done|].
  intros id' Hne. apply load_workspace_save_other. simpl. congruence.
Qed.

Lemma updatePermissions_sets_only_target_entry_witness :
  exists w',
    updatePermissions [Samples.w_guest] "w4" "u2" Samples.viewer_permissions
    = (successful w', save_workspace [Samples.w_guest] w') /\
    load_workspace (save_workspace [Samples.w_guest] w') "w4" = Some w' /\
    ws_permissions w' !! "u2" = Some Samples.viewer_permissions /\
    (forall k, k <> "u2" -> ws_permissions w' !! k = ws_permissions Samples.w_guest !! k) /\
    ws_members w' = ws_members Samples.w_guest /\ ws_owner w' = ws_owner Samples.w_guest /\
    (forall id', id' <> "w4" ->
       load_workspace (save_workspace [Samples.w_guest] w') id'
       = load_workspace [Samples.w_guest] id').
Proof.
  apply (updatePermissions_sets_only_target_entry [Samples.w_guest] "w4" "u2"
           Samples.viewer_permissions Samples.w_guest); [reflexivity | discriminate].
Defined.

(** X12: [addMember] of a user who is already a member saves the
    workspace as it is: the user's permissions entry, whatever role it
    grants, is kept. *)
Theorem addMember_existing_member_keeps_workspace
    (defaultPermissions : PermissionRoles -> IPermissions)
    (wsdb : list Workspace) (id : string) (u : User) (w : Workspace) :
  load_workspace wsdb id = Some w ->
  (exists m, m ∈ ws_members w /\ user_id m = user_id u) ->
  addMember defaultPermissions wsdb id u = (successful w, save_workspace wsdb w) /\
  load_workspace (save_workspace wsdb w) id = Some w.
Proof.
  intros Hl (m & Hm & Hmu). unfold addMember, addMember_try. rewrite Hl.
  assert (Hb : existsb (fun x => bool_decide (user_id x = user_id u)) (ws_members w) = true).
  { apply existsb_exists. exists m. split; [by apply list_elem_of_In|].
    by apply bool_decide_eq_true. }
  rewrite Hb. split; [reflexivity|].
  apply (load_workspace_save _ _ w); [done|]. by apply load_workspace_id in Hl.
Qed.

Lemma addMember_existing_member_keeps_workspace_witness :
  addMember Samples.defaults Samples.wsdb "w1" Samples.alice
  = (successful Samples.w_alice, save_workspace Samples.wsdb Samples.w_alice) /\
  load_workspace (save_workspace Samples.wsdb Samples.w_alice) "w1" = Some Samples.w_alice.
Proof.
  apply (addMember_existing_member_keeps_workspace Samples.defaults Samples.wsdb "w1"
           Samples.alice Samples.w_alice); [reflexivity|].
  exists Samples.alice. split; [left|reflexivity].
Defined.

(** X13: [addMember] of a user who is not a member appends the user to
    the members and sets the user's entry to the [VIEWER] defaults,
    replacing any entry the user held before; the other entries are kept. *)
Theorem addMember_new_member_gets_viewer
    (defaultPermissions : PermissionRoles -> IPermissions)
    (wsdb : list Workspace) (id : string) (u : User) (w : Workspace) :
  load_workspace wsdb id = Some w ->
  Forall (fun m => user_id m <> user_id u) (ws_members w) ->
  exists w',
    addMember defaultPermissions wsdb id u = (successful w', save_workspace wsdb w') /\
    load_workspace (save_workspace wsdb w') id = Some w' /\
    ws_members w' = app (ws_members w) [u] /\
    ws_permissions w' !! user_id u = Some (defaultPermissions VIEWER) /\
    (forall k, k <> user_id u -> ws_permissions w' !! k = ws_permissions w !! k).
Proof.
  intros Hl Hnm. pose proof (load_workspace_id _ _ _ Hl) as Hid.
  unfold addMember, addMember_try. rewrite Hl.
  assert (Hex : existsb (fun x => bool_decide (user_id x = user_id u)) (ws_members w) = false).
  { apply not_true_iff_false. intros Hb. apply existsb_exists in Hb as (x & Hx & Hb).
    apply bool_decide_eq_true in Hb. rewrite Forall_forall in Hnm.
    apply (Hnm x); [by apply list_elem_of_In|]. done. }
  rewrite Hex. eexists. split; [reflexivity|]. split.
  { apply (load_workspace_save _ _ w); [done|]. exact Hid. }
  simpl. split; [done|]. split; [apply lookup_insert_eq|].
  intros k Hk. rewrite lookup_insert_ne; [done|congruence].
Qed.

Lemma addMember_new_member_gets_viewer_witness :
  exists w',
    addMember Samples.defaults [Samples.w_guest] "w4" Samples.bob
    = (successful w', save_workspace [Samples.w_guest] w') /\
    load_workspace (save_workspace [Samples.w_guest] w') "w4" = Some w' /\
    ws_members w' = app (ws_members Samples.w_guest) [Samples.bob] /\
    ws_permissions w' !! "u2" = Some (Samples.defaults VIEWER) /\
    (forall k, k <> "u2" -> ws_permissions w' !! k = ws_permissions Samples.w_guest !! k).
Proof.
  apply (addMember_new_member_gets_viewer Samples.defaults [Samples.w_guest] "w4"
           Samples.bob Samples.w_guest); [reflexivity|].
  repeat constructor. discriminate.
Defined.

(** X14: after [removeMember] removes a user other than the owner, the
    permission gate rejects that user in the stored workspace with
    [MISSING_PERMISSION] for every non-empty requirement, whatever
    [validatePermissionGeneral] decides. *)
Theorem removed_member_rejected_by_gate
    (validatePermissionGeneral : Workspace -> string -> list PermissionRoles -> bool)
    (wsdb : list Workspace) (id m : string) (w : Workspace)
    (r1 : Response Workspace) (db1 : list Workspace)
    (p : PermissionRoles) (ps : list PermissionRoles) (u : User) :
  load_workspace wsdb id = Some w ->
  user_id (ws_owner w) <> m ->
  user_id u = m ->
  removeMember wsdb id m = (r1, db1) ->
  exists w1, r1 = successful w1 /\ load_workspace db1 id = Some w1 /\
    authPermissionMiddleware validatePermissionGeneral (Some (p :: ps)) (Some u) (Some w1)
    = Reject MISSING_PERMISSION.
Proof.
  intros Hl Hown Hu Hrm. unfold removeMember, removeMember_try in Hrm.
  rewrite Hl in Hrm. rewrite decide_False in Hrm by done.
  injection Hrm as <- <-. eexists. split; [reflexivity|]. split.
  - apply (load_workspace_save _ _ w); [done|]. by apply load_workspace_id in Hl.
  - simpl. rewrite Hu, lookup_delete_eq. reflexivity.
Qed.

Lemma removed_member_rejected_by_gate_witness :
  exists r1 db1,
    removeMember [Samples.w_guest] "w4" "u2" = (r1, db1) /\
    exists w1, r1 = successful w1 /\ load_workspace db1 "w4" = Some w1 /\
      authPermissionMiddleware (fun _ _ _ => true) (Some [VIEWER]) (Some Samples.bob)
        (Some w1) = Reject MISSING_PERMISSION.
Proof.
  do 2 eexists. split; [reflexivity|].
  apply (removed_member_rejected_by_gate (fun _ _ _ => true) [Samples.w_guest] "w4" "u2"
           Samples.w_guest);
    [reflexivity | discriminate | reflexivity | reflexivity].
Defined.

(** X15: [removeMember] of a user other than the owner keeps every other
    member and every other permissions entry, and leaves the other
    workspaces unchanged. *)
Theorem removeMember_keeps_others (wsdb : list Workspace) (id m : string) (w : Workspace) :
  load_workspace wsdb id = Some w ->
  user_id (ws_owner w) <> m ->
  exists w',
    removeMember wsdb id m = (successful w', save_workspace wsdb w') /\
    load_workspace (save_workspace wsdb w') id = Some w' /\
    (forall x, x ∈ ws_members w' <-> x ∈ ws_members w /\ user_id x <> m) /\
    ws_permissions w' !! m = None /\
    (forall k, k <> m -> ws_permissions w' !! k = ws_permissions w !! k) /\
    (forall id', id' <> id ->
       load_workspace (save_workspace wsdb w') id' = load_workspace wsdb id').
Proof.
  intros Hl Hown. pose proof (load_workspace_id _ _ _ Hl) as Hid.
  unfold removeMember, removeMember_try. rewrite Hl, decide_False by done.
  eexists. split; [reflexivity|]. split.
  { apply (load_workspace_save _ _ w); [done|]. exact Hid. }
  simpl. split.
  { intros x. rewrite !list_elem_of_In, filter_In, negb_true_iff, bool_decide_eq_false.
    done. }
  split; [apply lookup_delete_eq|]. split.
  { intros k Hk. rewrite lookup_delete_ne; [done|congruence]. }
  intros id' Hne. apply load_workspace_save_other. simpl. congruence.
Qed.

Lemma removeMember_keeps_others_witness :
  exists w',
    removeMember [Samples.w_guest] "w4" "u2"
    = (successful w', save_workspace [Samples.w_guest] w') /\
    load_workspace (save_workspace [Samples.w_guest] w') "w4" = Some w' /\
    (forall x, x ∈ ws_members w' <-> x ∈ ws_members Samples.w_guest /\ user_id x <> "u2") /\
    ws_permissions w' !! "u2" = None /\
    (forall k, k <> "u2" -> ws_permissions w' !! k = ws_permissions Samples.w_guest !! k) /\
    (forall id', id' <> "w4" ->
       load_workspace (save_workspace [Samples.w_guest] w') id'
       = load_workspace [Samples.w_guest] id').
Proof.
  apply (removeMember_keeps_others [Samples.w_guest] "w4" "u2" Samples.w_guest);
    [reflexivity | discriminate].
Defined.

(* ------------------------------------------------------------------ *)
(** ** Predicate listing *)

(** X16: in [PredicateService.list] each of the address, provider, owner
    and signer filters calls [where], which replaces the conditions set
    before it: with a non-empty signer the address, provider and owner
    filters have no effect, and the signer condition comes first. *)
Theorem predicate_list_signer_overrides_filters (f : IPredicateFilterParams)
    (p : option PaginationParams) (s : string) :
  pf_signer f = Some s -> s <> EmptyString ->
  predicate_list (Some f) p
  = predicate_list (Some (mkPredicateFilter None None None (Some s) (pf_q f) (pf_workspace f))) p /\
  exists q, predicate_list (Some f) p = inr q /\ head (query_conds q) = Some (BySigner s).
Proof.
  intros Hs Hne. destruct f as [a pr o sg qq ws]; simpl in Hs; subst sg.
  unfold predicate_list. cbn [pf_address pf_provider pf_owner pf_signer pf_q pf_workspace].
  rewrite !(when_set_where s BySigner) by done. split; [reflexivity|].
  destruct p as [pp|]; [destruct (truthy_str (page pp) && truthy_str (perPage pp))|];
    (eexists; split; [reflexivity|]); simpl;
    destruct qq as [q0|]; simpl; try destruct (bool_decide _); reflexivity.
Qed.

Lemma predicate_list_signer_overrides_filters_witness :
  predicate_list (Some (mkPredicateFilter (Some "0xpred") (Some "https://node") None
                          (Some "0xa1") None (Some ["w1"]))) None
  = predicate_list (Some (mkPredicateFilter None None None (Some "0xa1") None (Some ["w1"])))
      None /\
  exists q, predicate_list (Some (mkPredicateFilter (Some "0xpred") (Some "https://node") None
                                   (Some "0xa1") None (Some ["w1"]))) None = inr q /\
    head (query_conds q) = Some (BySigner "0xa1").
Proof.
  apply (predicate_list_signer_overrides_filters
           (mkPredicateFilter (Some "0xpred") (Some "https://node") None (Some "0xa1") None
              (Some ["w1"])) None "0xa1"); [reflexivity | discriminate].
Defined.

(** X17: [PredicateController.list] from a workspace that is not the
    user's single workspace builds the same query whatever the workspace
    and the user: the workspace filter is never applied.  Without
    address, provider, owner and text filters the query has no condition
    at all and lists every predicate. *)
Theorem PredicateController_list_non_single_unscoped (query : IListQuery)
    (w1 w2 : Workspace) (u1 u2 : User) (sw1 sw2 : Workspace) (allWk1 allWk2 : list string) :
  ws_id sw1 <> ws_id w1 -> ws_id sw2 <> ws_id w2 ->
  PredicateController_list query w1 u1 (Some sw1) allWk1
  = PredicateController_list query w2 u2 (Some sw2) allWk2 /\
  (truthy_str (lq_address query) = false -> truthy_str (lq_provider query) = false ->
   truthy_str (lq_owner query) = false -> truthy_str (lq_q query) = false ->
   exists q, PredicateController_list query w1 u1 (Some sw1) allWk1 = successful q /\
             query_conds q = []).
Proof.
  intros H1 H2. unfold PredicateController_list. rewrite !bool_decide_false by done.
  split; [reflexivity|].
  intros Ha Hp Ho Hq. unfold predicate_list.
  cbn [pf_address pf_provider pf_owner pf_signer pf_q pf_workspace].
  rewrite (when_set_unset _ _ _ Hq), (when_set_unset None _ _ eq_refl),
    (when_set_unset _ _ _ Ho), (when_set_unset _ _ _ Hp), (when_set_unset _ _ _ Ha).
  cbn [page perPage].
  destruct (truthy_str (lq_page query) && truthy_str (lq_perPage query));
    eexists; split; reflexivity.
Qed.

Lemma PredicateController_list_non_single_unscoped_witness :
  PredicateController_list Samples.list_query_all Samples.w_shared Samples.alice
    (Some Samples.w_alice) ["w1"; "w3"]
  = PredicateController_list Samples.list_query_all Samples.w_bob Samples.alice
      (Some Samples.w_alice) ["w1"; "w3"] /\
  (truthy_str (lq_address Samples.list_query_all) = false ->
   truthy_str (lq_provider Samples.list_query_all) = false ->
   truthy_str (lq_owner Samples.list_query_all) = false ->
   truthy_str (lq_q Samples.list_query_all) = false ->
   exists q, PredicateController_list Samples.list_query_all Samples.w_shared Samples.alice
               (Some Samples.w_alice) ["w1"; "w3"] = successful q /\ query_conds q = []).
Proof.
  apply (PredicateController_list_non_single_unscoped Samples.list_query_all
           Samples.w_shared Samples.w_bob Samples.alice Samples.alice
           Samples.w_alice Samples.w_alice ["w1"; "w3"] ["w1"; "w3"]); discriminate.
Defined.

(** X18: [PredicateController.list] from the user's single workspace lists
    the predicates the user's address signs: the query's first condition
    is the signer condition and the only other one is the text search;
    the address, provider and owner parameters are dropped. *)
Theorem PredicateController_list_single_by_signer (query : IListQuery) (w : Workspace)
    (u : User) (sw : Workspace) (allWk : list string) :
  ws_id sw = ws_id w -> user_address u <> EmptyString ->
  exists q tail,
    PredicateController_list query w u (Some sw) allWk = successful q /\
    query_conds q = BySigner (user_address u) :: tail /\
    Forall (fun c => exists pattern, c = ByNameOrDescription pattern) tail.
Proof.
  intros Hw Hu. unfold PredicateController_list. rewrite bool_decide_true by done.
  unfold predicate_list. cbn [pf_address pf_provider pf_owner pf_signer pf_q pf_workspace].
  rewrite (when_set_where (user_address u) BySigner) by done.
  destruct (lq_q query) as [q0|]; [unfold when_set; destruct (bool_decide _)|];
    cbn [page perPage];
    destruct (truthy_str (lq_page query) && truthy_str (lq_perPage query));
    do 2 eexists; (split; [reflexivity|]); (split; [reflexivity|]);
    repeat constructor; eexists; reflexivity.
Qed.

Lemma PredicateController_list_single_by_signer_witness :
  exists q tail,
    PredicateController_list Samples.list_query Samples.w_alice Samples.alice
      (Some Samples.w_alice) ["w1"; "w3"] = successful q /\
    query_conds q = BySigner "0xa1" :: tail /\
    Forall (fun c => exists pattern, c = ByNameOrDescription pattern) tail.
Proof.
  apply (PredicateController_list_single_by_signer Samples.list_query Samples.w_alice
           Samples.alice Samples.w_alice ["w1"; "w3"]); [reflexivity | discriminate].
Defined.

(* ------------------------------------------------------------------ *)
(** ** Reserved coins *)

(** X19: when [parseUnits('0')] is 0 and every asset amount of the
    counted transactions parses, [hasReservedCoins] is the sum of the
    asset amounts of the transactions awaiting requirements or pending
    the sender; transactions in any other status are not counted. *)
Theorem hasReservedCoins_sums_pending (parseUnits : string -> option Z)
    (amount : Asset -> Z) (txs : list Transaction) :
  parseUnits "0" = Some 0%Z ->
  Forall (fun t => is_reserved t = true ->
            Forall (fun a => parseUnits (asset_amount a) = Some (amount a)) (tx_assets t)) txs ->
  hasReservedCoins parseUnits (Some txs)
  = Some (foldr Z.add 0%Z
            (map (fun t => foldr Z.add 0%Z (map amount (tx_assets t)))
               (List.filter is_reserved txs))).
Proof.
  intros H0 Hall. unfold hasReservedCoins. simpl. unfold reserved_total. rewrite H0.
  assert (Hres : Forall (fun t => transaction_total parseUnits t
                                  = Some (foldr Z.add 0%Z (map amount (tx_assets t))))
                   (List.filter is_reserved txs)).
  { apply Forall_forall. intros t Ht.
    apply list_elem_of_In, filter_In in Ht as [Ht Hr].
    rewrite Forall_forall in Hall. apply list_elem_of_In in Ht.
    unfold transaction_total. rewrite H0, (foldl_add_asset parseUnits amount) by (by apply Hall).
    reflexivity. }
  assert (Hfold : forall x,
    foldl (fun acc t => x ← acc; s ← transaction_total parseUnits t; Some (x + s)%Z)
      (Some x) (List.filter is_reserved txs)
    = Some (x + foldr Z.add 0%Z
                  (map (fun t => foldr Z.add 0%Z (map amount (tx_assets t)))
                     (List.filter is_reserved txs)))%Z).
  { induction Hres as [|t l Ht Hres IH]; intros x; cbn [foldl foldr map].
    - f_equal; lia.
    - replace (x ← Some x; s ← transaction_total parseUnits t; Some (x + s)%Z)
        with (Some (x + foldr Z.add 0%Z (map amount (tx_assets t)))%Z)
        by (simpl; by rewrite Ht).
      rewrite IH. f_equal. lia. }
  rewrite Hfold. reflexivity.
Qed.

Lemma hasReservedCoins_sums_pending_witness :
  hasReservedCoins Samples.units (Some Samples.txs) = Some 6000000000%Z.
Proof.
  apply (hasReservedCoins_sums_pending Samples.units Samples.units_amount Samples.txs).
  - reflexivity.
  - repeat (constructor || intros _).
Defined.

(** X20: an amount of a counted transaction that does not parse, or a
    failing transaction listing, does not skip that amount: the whole
    result falls back to [parseUnits('0')], i.e. no coins are reported
    reserved. *)
Theorem hasReservedCoins_failure_gives_zero (parseUnits : string -> option Z)
    (listed : option (list Transaction)) :
  parseUnits "0" = Some 0%Z ->
  listed = None \/
  (exists txs t a, listed = Some txs /\ t ∈ txs /\ is_reserved t = true /\
     a ∈ tx_assets t /\ parseUnits (asset_amount a) = None) ->
  hasReservedCoins parseUnits listed = Some 0%Z.
Proof.
  intros H0 [->|(txs & t & a & -> & Ht & Hr & Ha & Hp)]; unfold hasReservedCoins; simpl;
    [exact H0|].
  assert (Htt : transaction_total parseUnits t = None).
  { unfold transaction_total.
    apply (foldl_option_none _ _ a); [done| |done].
    intros [x|]; simpl; [by rewrite Hp|done]. }
  unfold reserved_total.
  rewrite (foldl_option_none _ _ t); [exact H0|done| |].
  - intros [x|]; simpl; [by rewrite Htt|done].
  - apply list_elem_of_In, filter_In. split; [by apply list_elem_of_In|done].
Qed.

Lemma hasReservedCoins_failure_gives_zero_witness :
  hasReservedCoins Samples.units (Some Samples.bad_txs) = Some 0%Z.
Proof.
  apply (hasReservedCoins_failure_gives_zero Samples.units (Some Samples.bad_txs)).
  - reflexivity.
  - right. exists Samples.bad_txs, Samples.bad_tx, Samples.bad_asset.
    split; [reflexivity|]. split; [right; left|]. split; [reflexivity|].
    split; [right; left|]. reflexivity.
Defined.
